(** * Automation-Hub: the follower-gap report and the bulk mailer

    A shallow embedding of the two scripts of the repository,

    - [Export followers without following.py] (module [FollowerGap]) and
    - [Email_Jobs_Sender.py] (module [Mailer]),

    followed by the properties of each.

    Conventions.  A Python [str] is a [string] whose characters are code
    points below 256; literal message texts of the scripts are kept as
    they are spelled in the source.  A Python object decoded by
    [json.load] is a [pyval]; numbers are the integers that integer
    literals decode to.  Exceptions are values of [exn], and code that can
    raise returns a [result]. *)

From Stdlib Require Import ZArith String Ascii List Bool Lia.
From stdpp Require Import base tactics option list strings gmap pretty.

Set Warnings "-register-all".
Local Open Scope string_scope.
Local Open Scope Z_scope.

(** ** Python values and exceptions *)

Module Py.

Inductive pyval : Type :=
| PNone
| PBool (b : bool)
| PInt (z : Z)
| PStr (s : string)
| PList (l : list pyval)
| PDict (d : list (string * pyval)).

Inductive exn : Type :=
| FileNotFoundError (msg : string)
| ValueError
| KeyError (key : pyval)
| IndexError
| TypeError
| AttributeError
| LibraryError (name : string).

Inductive result (A : Type) : Type :=
| Ok (a : A)
| Raise (e : exn).

Arguments Ok {A} a.
Arguments Raise {A} e.

Definition bind {A B : Type} (r : result A) (k : A -> result B) : result B :=
  match r with
  | Ok a => k a
  | Raise e => Raise e
  end.

Notation "'let?' x ':=' r 'in' k" := (bind r (fun x => k))
  (at level 10, x name, r at level 100, k at level 200).

(** A dict decoded from JSON has string keys, each bound once; it is kept
    as the list of its items in insertion order. *)
Fixpoint dict_lookup (k : string) (d : list (string * pyval)) : option pyval :=
  match d with
  | [] => None
  | (k', v) :: d' => if String.eqb k k' then Some v else dict_lookup k d'
  end.

(** [obj[key]] for a string key. *)
Definition getitem_str (obj : pyval) (key : string) : result pyval :=
  match obj with
  | PDict d =>
      match dict_lookup key d with
      | Some v => Ok v
      | None => Raise (KeyError (PStr key))
      end
  | _ => Raise TypeError
  end.

(** [obj[0]]. *)
Definition getitem_0 (obj : pyval) : result pyval :=
  match obj with
  | PList [] => Raise IndexError
  | PList (x :: _) => Ok x
  | PStr EmptyString => Raise IndexError
  | PStr (String c _) => Ok (PStr (String c EmptyString))
  | PDict _ => Raise (KeyError (PInt 0))
  | _ => Raise TypeError
  end.

(** [obj.get(key, default)]. *)
Definition get_default (obj : pyval) (key : string) (default : pyval)
  : result pyval :=
  match obj with
  | PDict d =>
      match dict_lookup key d with
      | Some v => Ok v
      | None => Ok default
      end
  | _ => Raise AttributeError
  end.

Fixpoint chars (s : string) : list pyval :=
  match s with
  | EmptyString => []
  | String c s' => PStr (String c EmptyString) :: chars s'
  end.

(** The elements a [for] clause draws from [obj]. *)
Definition iter (obj : pyval) : result (list pyval) :=
  match obj with
  | PList l => Ok l
  | PDict d => Ok (map (fun kv => PStr (fst kv)) d)
  | PStr s => Ok (chars s)
  | _ => Raise TypeError
  end.

(** [a == b]. [bool] is a subclass of [int]; dicts compare regardless of
    the order of their items. *)
Fixpoint py_eq (a b : pyval) {struct a} : bool :=
  match a, b with
  | PNone, PNone => true
  | PBool x, PBool y => Bool.eqb x y
  | PBool x, PInt y => Z.eqb (Z.b2z x) y
  | PInt x, PBool y => Z.eqb x (Z.b2z y)
  | PInt x, PInt y => Z.eqb x y
  | PStr x, PStr y => String.eqb x y
  | PList l1, PList l2 =>
      (fix all2 (l1 l2 : list pyval) {struct l1} : bool :=
         match l1, l2 with
         | [], [] => true
         | x :: l1', y :: l2' => py_eq x y && all2 l1' l2'
         | _, _ => false
         end) l1 l2
  | PDict d1, PDict d2 =>
      Nat.eqb (length d1) (length d2) &&
      (fix items (d : list (string * pyval)) {struct d} : bool :=
         match d with
         | [] => true
         | (k, v) :: d' =>
             match dict_lookup k d2 with
             | Some v' => py_eq v v'
             | None => false
             end && items d'
         end) d1
  | _, _ => false
  end.

(** [x in l] for a list [l]. *)
Definition py_in (x : pyval) (l : list pyval) : bool :=
  existsb (py_eq x) l.

(** *** [str] and [repr] *)

Definition dquote : ascii := "034"%char.
Definition squote : ascii := "'"%char.
Definition backslash : ascii := "\"%char.

Fixpoint contains (c : ascii) (s : string) : bool :=
  match s with
  | EmptyString => false
  | String c' s' => Ascii.eqb c c' || contains c s'
  end.

Definition hex_digit (n : N) : ascii :=
  match n with
  | 0 => "0" | 1 => "1" | 2 => "2" | 3 => "3" | 4 => "4" | 5 => "5"
  | 6 => "6" | 7 => "7" | 8 => "8" | 9 => "9" | 10 => "a" | 11 => "b"
  | 12 => "c" | 13 => "d" | 14 => "e" | _ => "f"
  end%N%char.

(** Code points below 256 that [repr] prints as they are. *)
Definition printable (n : N) : bool :=
  ((32 <=? n) && (n <=? 126) || (161 <=? n) && negb (n =? 173))%N.

Definition repr_char (quote c : ascii) : string :=
  let n := N_of_ascii c in
  if Ascii.eqb c quote || Ascii.eqb c backslash
  then String backslash (String c EmptyString)
  else if (n =? 9)%N then String backslash "t"
  else if (n =? 10)%N then String backslash "n"
  else if (n =? 13)%N then String backslash "r"
  else if printable n then String c EmptyString
  else String backslash
         (String "x" (String (hex_digit (n / 16)) (String (hex_digit (n mod 16)) EmptyString))).

Fixpoint repr_chars (quote : ascii) (s : string) : string :=
  match s with
  | EmptyString => EmptyString
  | String c s' => repr_char quote c ++ repr_chars quote s'
  end.

Definition repr_str (s : string) : string :=
  let quote := if contains squote s && negb (contains dquote s)
               then dquote else squote in
  String quote (repr_chars quote s ++ String quote EmptyString).

Fixpoint join (sep : string) (l : list string) : string :=
  match l with
  | [] => EmptyString
  | [x] => x
  | x :: l' => x ++ sep ++ join sep l'
  end.

Fixpoint repr (v : pyval) : string :=
  match v with
  | PNone => "None"
  | PBool true => "True"
  | PBool false => "False"
  | PInt z => pretty z
  | PStr s => repr_str s
  | PList l => "[" ++ join ", " (map repr l) ++ "]"
  | PDict d =>
      "{" ++ join ", " (map (fun kv => repr_str (fst kv) ++ ": " ++ repr (snd kv)) d) ++ "}"
  end.

(** [str(v)], which is what an f-string field [{v}] inserts. *)
Definition str (v : pyval) : string :=
  match v with
  | PStr s => s
  | _ => repr v
  end.

End Py.

(** ** Pipeline A: [Export followers without following.py] *)

Module FollowerGap.
Import Py.

(** A cell of a [pandas] table: a Python object, or [None] where the
    table has a missing value. *)
Definition cell : Type := option pyval.

Record DataFrame : Type := mkDataFrame {
  columns : list string;
  rows : list (list cell)
}.

(** What a path of the working directory may hold: a file of UTF-8 JSON
    text (given by the structure it decodes to), a workbook written by
    [to_excel], or anything [json.load] rejects. *)
Inductive file : Type :=
| JsonText (doc : pyval)
| Workbook (df : DataFrame)
| OtherBytes.

Abbreviation filesystem := (gmap string file).

Definition following_path : string := "followers_and_following/following.json".
Definition followers_path : string := "followers_and_following/followers.json".
Definition output_file : string := "not_following_back_detailed.xlsx".

(** The text of the f-string raised for a missing file; the cross mark
    U+274C is spelled in UTF-8. *)
Definition not_found_message (filename : string) : string :=
  "❌ File '" ++ filename ++ "' was not found. Please check the path.".

Definition load_json_file (fs : filesystem) (filename : string) : result pyval :=
  match fs !! filename with
  | None => Raise (FileNotFoundError (not_found_message filename))
  | Some (JsonText doc) => Ok doc
  | Some _ => Raise ValueError
  end.

(** [entry["string_list_data"][0]], evaluated anew by each of the three
    components of the tuple. *)
Definition first_record (entry : pyval) : result pyval :=
  let? sld := getitem_str entry "string_list_data" in
  getitem_0 sld.

Definition following_entry : Type := pyval * pyval * pyval.

Definition extract_following_entry (entry : pyval) : result following_entry :=
  let? r1 := first_record entry in
  let? username := getitem_str r1 "value" in
  let? r2 := first_record entry in
  let? timestamp := get_default r2 "timestamp" (PStr "N/A") in
  let? r3 := first_record entry in
  let? url := getitem_str r3 "href" in
  Ok (username, timestamp, url).

(** A list comprehension whose element expression can raise: the first
    exception ends it. *)
Fixpoint comprehension {A : Type} (f : pyval -> result A) (l : list pyval)
  : result (list A) :=
  match l with
  | [] => Ok []
  | x :: l' =>
      let? y := f x in
      let? ys := comprehension f l' in
      Ok (y :: ys)
  end.

Definition extract_following (following_data : pyval) : result (list following_entry) :=
  let? relationships := get_default following_data "relationships_following" (PList []) in
  let? entries := iter relationships in
  comprehension extract_following_entry entries.

Definition extract_follower (entry : pyval) : result pyval :=
  let? r := first_record entry in
  getitem_str r "value".

Definition extract_followers (followers_data : pyval) : result (list pyval) :=
  let? entries := iter followers_data in
  comprehension extract_follower entries.

(** [f'=HYPERLINK("{url}", "{username}")']. *)
Definition hyperlink (url username : pyval) : string :=
  "=HYPERLINK(" ++ String dquote (str url) ++ String dquote ", "
    ++ String dquote (str username) ++ String dquote ")".

(** The dict built for one account, as the list of its items. *)
Definition gap_row (e : following_entry) : list (string * pyval) :=
  let '(username, timestamp, url) := e in
  [ ("Username", username);
    ("Followed At", timestamp);
    ("Profile URL", PStr (hyperlink url username)) ].

Definition username_of (e : following_entry) : pyval := fst (fst e).

Fixpoint not_following_back (following : list following_entry) (followers : list pyval)
  : list (list (string * pyval)) :=
  match following with
  | [] => []
  | (username, timestamp, url) :: following' =>
      if negb (py_in username followers)
      then gap_row (username, timestamp, url) :: not_following_back following' followers
      else not_following_back following' followers
  end.

(** The header the report is documented to have. *)
Definition report_columns : list string := ["Username"; "Followed At"; "Profile URL"].

(** The cells of an account under that header. *)
Definition report_cells (e : following_entry) : list cell :=
  map (fun c => dict_lookup c (gap_row e)) report_columns.

(** [pd.DataFrame(records)] for a list of dicts: the columns are the keys
    of the records in the order they first occur, and a record without a
    key gets a missing value there.  No record, no column. *)
Fixpoint add_keys (seen : list string) (keys : list string) : list string :=
  match keys with
  | [] => seen
  | k :: keys' =>
      if existsb (String.eqb k) seen then add_keys seen keys'
      else add_keys (seen ++ [k]) keys'
  end.

Definition record_columns (records : list (list (string * pyval))) : list string :=
  fold_left (fun seen r => add_keys seen (map fst r)) records [].

Definition make_DataFrame (records : list (list (string * pyval))) : DataFrame :=
  let cols := record_columns records in
  {| columns := cols;
     rows := map (fun r => map (fun c => dict_lookup c r) cols) records |}.

(** *** [df.to_excel(output_file, index=False)]

    The sheet is filled cell by cell by the [openpyxl] writer: the column
    labels first, then the body, column after column from the top.  A
    cell that cannot be written raises, and what was written before it is
    saved all the same, the file having been opened for writing. *)

(** The characters [openpyxl] refuses in the text of a cell: the control
    characters other than tab, line feed and carriage return. *)
Definition illegal_character (c : ascii) : bool :=
  let n := N_of_ascii c in
  ((n <=? 8) || (n =? 11) || (n =? 12) || (14 <=? n) && (n <=? 31))%N.

Fixpoint has_illegal_character (s : string) : bool :=
  match s with
  | EmptyString => false
  | String c s' => illegal_character c || has_illegal_character s'
  end.

(** [value[:n]]. *)
Fixpoint truncate (n : N) (s : string) : string :=
  match s with
  | EmptyString => EmptyString
  | String c s' =>
      if (n =? 0)%N then EmptyString else String c (truncate (N.pred n) s')
  end.

(** The text of a cell is cut to 32767 characters and then checked. *)
Definition check_string (s : string) : result string :=
  let s' := truncate 32767 s in
  if has_illegal_character s' then Raise (LibraryError "IllegalCharacterError")
  else Ok s'.

(** What a cell of the sheet gets from a cell of the table: a missing
    value and [None] are written as the empty text, text is checked,
    numbers and booleans are kept, and a list or a dict cannot be
    written. *)
Definition write_value (c : cell) : result cell :=
  match c with
  | None => Ok (Some (PStr EmptyString))
  | Some PNone => Ok (Some (PStr EmptyString))
  | Some (PStr s) => let? s' := check_string s in Ok (Some (PStr s'))
  | Some (PBool b) => Ok (Some (PBool b))
  | Some (PInt z) => Ok (Some (PInt z))
  | Some (PList _) => Raise ValueError
  | Some (PDict _) => Raise ValueError
  end.

(** Cells are written one after the other; the first that cannot be
    written ends the writing.  The result is what was written and the
    exception, if any. *)
Fixpoint write_cells {A B : Type} (f : A -> result B) (l : list A)
  : list B * option exn :=
  match l with
  | [] => ([], None)
  | x :: l' =>
      match f x with
      | Raise e => ([], Some e)
      | Ok y => let '(ys, err) := write_cells f l' in (y :: ys, err)
      end
  end.

(** The columns of the body one after the other; a column that could not
    be finished is the last one written to. *)
Fixpoint write_columns (cols : list (list cell)) : list (list cell) * option exn :=
  match cols with
  | [] => ([], None)
  | col :: cols' =>
      match write_cells write_value col with
      | (written, Some e) => ([written], Some e)
      | (written, None) =>
          let '(rest, err) := write_columns cols' in (written :: rest, err)
      end
  end.

Definition column_of (df : DataFrame) (c : nat) : list cell :=
  map (fun r => nth c r None) (rows df).

(** The rows of the sheet, from the columns as far as they were written:
    a row exists when its first cell was written, and a cell that was not
    reached is empty. *)
Definition sheet_rows (ncols : nat) (written : list (list cell)) : list (list cell) :=
  map (fun r => map (fun c => nth r (nth c written []) None) (seq 0 ncols))
      (seq 0 (length (hd [] written))).

Definition to_excel (df : DataFrame) (path : string) (fs : filesystem)
  : result unit * filesystem :=
  match write_cells check_string (columns df) with
  | (labels, Some e) =>
      (Raise e, <[path := Workbook {| columns := labels; rows := [] |}]> fs)
  | (labels, None) =>
      match write_columns (map (column_of df) (seq 0 (length (columns df)))) with
      | (written, err) =>
          (match err with
           | Some e => Raise e
           | None => Ok tt
           end,
           <[path := Workbook {| columns := labels;
                                 rows := sheet_rows (length labels) written |}]> fs)
      end
  end.

(** The script from top to bottom: the exception that ends it, if any,
    and the files it leaves behind. *)
Definition run (fs : filesystem) : result unit * filesystem :=
  match load_json_file fs following_path with
  | Raise e => (Raise e, fs)
  | Ok following_data =>
  match load_json_file fs followers_path with
  | Raise e => (Raise e, fs)
  | Ok followers_data =>
  match extract_following following_data with
  | Raise e => (Raise e, fs)
  | Ok following =>
  match extract_followers followers_data with
  | Raise e => (Raise e, fs)
  | Ok followers =>
      let df := make_DataFrame (not_following_back following followers) in
      to_excel df output_file fs
  end end end end.

(** Lines 69 to 100 on their own: the rows, or the exception raised
    before anything is written. *)
Definition rows_before_write (fs : filesystem) : result (list (list (string * pyval))) :=
  let? following_data := load_json_file fs following_path in
  let? followers_data := load_json_file fs followers_path in
  let? following := extract_following following_data in
  let? followers := extract_followers followers_data in
  Ok (not_following_back following followers).

End FollowerGap.

(** ** Pipeline B: [Email_Jobs_Sender.py] *)

Module Mailer.
Import Py.

(** A cell of the recipient sheet as [read_excel] returns it: a missing
    value, text, or a value that is not text (a number, a boolean, a
    date), given by the string [astype(str)] makes of it in its column. *)
Inductive cell : Type :=
| NaN
| Text (s : string)
| Other (shown : string).

Record DataFrame : Type := mkDataFrame {
  columns : list string;
  rows : list (list cell)
}.

(** The attributes of a [google.oauth2] credential the script reads. *)
Record Credentials : Type := mkCredentials {
  valid : bool;
  expired : bool;
  refresh_token : option string
}.

Inductive file : Type :=
| Workbook (df : DataFrame)
| Pickle (creds : Credentials)
| OtherBytes.

Abbreviation filesystem := (gmap string file).

Definition email_list : string := "Email List.xlsx".
Definition token_pickle : string := "token.pickle".

(** The collaborators outside the script: the token endpoint, the
    browser flow (with the reading of [credentials.json]), the API
    discovery, the mail API and the permission to overwrite the sheet.
    [send i email] is the outcome of the [try] body for the [i]-th
    recipient: the message id, or [None] when anything in it raises. *)
Record World : Type := mkWorld {
  refresh : Credentials -> result Credentials;
  run_local_server : result Credentials;
  build : result unit;
  send : nat -> string -> option string;
  writable : bool
}.

(** *** 1. Read the email list *)

(** [str.strip()]: the white space among the code points below 256. *)
Definition is_space (c : ascii) : bool :=
  let n := N_of_ascii c in
  ((9 <=? n) && (n <=? 13) || (28 <=? n) && (n <=? 32) || (n =? 133) || (n =? 160))%N.

Fixpoint lstrip (s : string) : string :=
  match s with
  | EmptyString => EmptyString
  | String c s' => if is_space c then lstrip s' else s
  end.

Fixpoint rstrip (s : string) : string :=
  match s with
  | EmptyString => EmptyString
  | String c s' =>
      match rstrip s' with
      | EmptyString => if is_space c then EmptyString else String c EmptyString
      | r => String c r
      end
  end.

Definition strip (s : string) : string := rstrip (lstrip s).

Fixpoint index_of (label : string) (cols : list string) : option nat :=
  match cols with
  | [] => None
  | c :: cols' =>
      if String.eqb label c then Some O
      else option_map S (index_of label cols')
  end.

(** [df[label]]: the column as a list, one cell per row. *)
Definition getitem_column (df : DataFrame) (label : string) : result (list cell) :=
  match index_of label (columns df) with
  | None => Raise (KeyError (PStr label))
  | Some i => Ok (map (fun r => nth i r NaN) (rows df))
  end.

Definition notna (c : cell) : bool :=
  match c with
  | NaN => false
  | Text _ => true
  | Other _ => true
  end.

Definition dropna (col : list cell) : list cell := List.filter notna col.

Definition astype_str (c : cell) : string :=
  match c with
  | NaN => "nan"
  | Text s => s
  | Other shown => shown
  end.

(** [df["Email"].dropna().astype(str).str.strip().tolist()]. *)
Definition clean (col : list cell) : list string :=
  map strip (map astype_str (dropna col)).

Definition read_excel (fs : filesystem) (path : string) : result DataFrame :=
  match fs !! path with
  | None => Raise (FileNotFoundError path)
  | Some (Workbook df) => Ok df
  | Some _ => Raise ValueError
  end.

Definition read_emails (fs : filesystem) : result (DataFrame * list string) :=
  let? df := read_excel fs email_list in
  let? col := getitem_column df "Email" in
  Ok (df, clean col).

(** *** 2. Connect to the mail API *)

Inductive auth_event : Type :=
| RefreshAttempt
| InteractiveFlow
| TokenSaved (creds : Credentials).

(** Truth value of [creds.refresh_token]. *)
Definition truthy (t : option string) : bool :=
  match t with
  | None => false
  | Some EmptyString => false
  | Some _ => true
  end.

Definition load_token (fs : filesystem) : result (option Credentials) :=
  match fs !! token_pickle with
  | None => Ok None
  | Some (Pickle c) => Ok (Some c)
  | Some _ => Raise (LibraryError "UnpicklingError")
  end.

(** The branch that obtains a credential and saves it. *)
Definition renew (w : World) (creds : option Credentials) (fs : filesystem)
  : result Credentials * filesystem * list auth_event :=
  let refreshable :=
    match creds with
    | Some c => expired c && truthy (refresh_token c)
    | None => false
    end in
  match creds, refreshable with
  | Some c, true =>
      match refresh w c with
      | Raise e => (Raise e, fs, [RefreshAttempt])
      | Ok c' => (Ok c', <[token_pickle := Pickle c']> fs, [RefreshAttempt; TokenSaved c'])
      end
  | _, _ =>
      match run_local_server w with
      | Raise e => (Raise e, fs, [InteractiveFlow])
      | Ok c' => (Ok c', <[token_pickle := Pickle c']> fs, [InteractiveFlow; TokenSaved c'])
      end
  end.

Definition authorize (w : World) (fs : filesystem)
  : result Credentials * filesystem * list auth_event :=
  match load_token fs with
  | Raise e => (Raise e, fs, [])
  | Ok creds =>
      match creds with
      | Some c => if valid c then (Ok c, fs, []) else renew w creds fs
      | None => renew w creds fs
      end
  end.

(** *** 4. Send emails *)

(** The loop over [emails]; [failed_emails] is threaded through it and
    grows at its end. *)
Fixpoint send_all (w : World) (i : nat) (emails failed_emails : list string)
  : list string :=
  match emails with
  | [] => failed_emails
  | email :: emails' =>
      match send w i email with
      | Some _ => send_all w (S i) emails' failed_emails
      | None => send_all w (S i) emails' (failed_emails ++ [email])
      end
  end.

(** *** 5. Update the sheet *)

(** One entry of [Series.isin(values)] for a list of strings: a value that
    is not text equals none of them. *)
Definition isin (values : list string) (c : cell) : bool :=
  match c with
  | NaN => false
  | Text s => existsb (String.eqb s) values
  | Other _ => false
  end.

(** [df[mask]] for a boolean mask. *)
Fixpoint boolean_index {A : Type} (rs : list A) (mask : list bool) : list A :=
  match rs, mask with
  | r :: rs', b :: mask' =>
      if b then r :: boolean_index rs' mask' else boolean_index rs' mask'
  | _, _ => []
  end.

Definition remaining_df (df : DataFrame) (failed_emails : list string)
  : result DataFrame :=
  let? col := getitem_column df "Email" in
  Ok {| columns := columns df;
        rows := boolean_index (rows df) (map (isin failed_emails) col) |}.

Definition update_excel (w : World) (df : DataFrame) (failed_emails : list string)
    (fs : filesystem) : filesystem :=
  match remaining_df df failed_emails with
  | Raise _ => fs
  | Ok remaining =>
      if writable w then <[email_list := Workbook remaining]> fs else fs
  end.

(** The token file holds a credential that is expired and can be
    refreshed. *)
Definition stale (fs : filesystem) (c : Credentials) : Prop :=
  fs !! token_pickle = Some (Pickle c) /\
  valid c = false /\ expired c = true /\ truthy (refresh_token c) = true.

(** *** The script from top to bottom *)

Inductive outcome : Type :=
| Completed
| Exited
| Crashed (e : exn).

Definition run (w : World) (fs : filesystem)
  : outcome * filesystem * list auth_event :=
  match read_emails fs with
  | Raise _ => (Exited, fs, [])
  | Ok (df, emails) =>
  match authorize w fs with
  | (Raise e, fs1, tr) => (Crashed e, fs1, tr)
  | (Ok creds, fs1, tr) =>
  match build w with
  | Raise e => (Crashed e, fs1, tr)
  | Ok _ =>
      let failed_emails := send_all w 0 emails [] in
      (Completed, update_excel w df failed_emails fs1, tr)
  end end end.

End Mailer.

(** ** [base64.urlsafe_b64encode], as line 115 of the mailer calls it *)

Module Base64Url.

(** The alphabet of RFC 4648, section 5. *)
Definition alphabet : string :=
  "ABCDEFGHIJKLMNOPQRSTUVWXYZabcdefghijklmnopqrstuvwxyz0123456789-_".

Definition pad : ascii := "="%char.

(** The character of a six-bit group. *)
Definition sextet (n : N) : ascii :=
  match String.get (N.to_nat n) alphabet with
  | Some c => c
  | None => pad
  end.

(** Bytes are taken three at a time; one or two bytes left over are
    filled up with zero bits and the group is padded to four characters. *)
Fixpoint urlsafe_b64encode (bytes : string) : string :=
  match bytes with
  | EmptyString => EmptyString
  | String a EmptyString =>
      let x := N_of_ascii a in
      String (sextet (N.shiftr x 2))
        (String (sextet (N.shiftl (N.land x 3) 4))
           (String pad (String pad EmptyString)))
  | String a (String b EmptyString) =>
      let x := N_of_ascii a in
      let y := N_of_ascii b in
      String (sextet (N.shiftr x 2))
        (String (sextet (N.lor (N.shiftl (N.land x 3) 4) (N.shiftr y 4)))
           (String (sextet (N.shiftl (N.land y 15) 2))
              (String pad EmptyString)))
  | String a (String b (String c rest)) =>
      let x := N_of_ascii a in
      let y := N_of_ascii b in
      let z := N_of_ascii c in
      String (sextet (N.shiftr x 2))
        (String (sextet (N.lor (N.shiftl (N.land x 3) 4) (N.shiftr y 4)))
           (String (sextet (N.lor (N.shiftl (N.land y 15) 2) (N.shiftr z 6)))
              (String (sextet (N.land z 63))
                 (urlsafe_b64encode rest))))
  end.

(** A character that may stand in a URL-safe payload. *)
Definition url_safe (c : ascii) : bool :=
  Py.contains c alphabet || Ascii.eqb c pad.

Fixpoint all_url_safe (s : string) : bool :=
  match s with
  | EmptyString => true
  | String c s' => url_safe c && all_url_safe s'
  end.

End Base64Url.

(** ** Concrete inputs used below *)

Module GapSamples.
Import Py FollowerGap.

(** One record of an export: [{"string_list_data": [{...}]}]. *)
Definition account (username : string) (timestamp : option Z) (href : string) : pyval :=
  PDict [ ("title", PStr "");
          ("string_list_data",
           PList [ PDict (("href", PStr href) :: ("value", PStr username) ::
                          match timestamp with
                          | Some t => [("timestamp", PInt t)]
                          | None => []
                          end) ]) ].

Definition sample_following : list following_entry :=
  [ (PStr "a", PInt 100, PStr "u/a"); (PStr "b", PStr "N/A", PStr "u/b") ].

Definition following_doc : pyval :=
  PDict [ ("relationships_following",
           PList [ account "a" (Some 100) "u/a"; account "b" None "u/b" ]) ].

Definition followers_doc : pyval := PList [ account "b" (Some 5) "u/b" ].

(** Everyone followed follows back. *)
Definition mutual_followers_doc : pyval :=
  PList [ account "a" (Some 7) "u/a"; account "b" (Some 5) "u/b" ].

Definition both_files (following_data followers_data : pyval) : filesystem :=
  <[following_path := JsonText following_data]>
    (<[followers_path := JsonText followers_data]> ∅).

Definition only_following (following_data : pyval) : filesystem :=
  <[following_path := JsonText following_data]> ∅.

End GapSamples.

Module GapInputs.
Import Py FollowerGap GapSamples.

(** An export in which the one followed account has a control character
    (code 1) in its username. *)
Definition tainted_doc : pyval :=
  PDict [ ("relationships_following",
           PList [ account (String "001"%char "bad") (Some 100) "u/bad" ]) ].

(** An account all of whose cells the writer takes as they are. *)
Definition writable_entry (e : following_entry) : Prop :=
  Forall (fun c => write_value c = Ok c) (report_cells e).

End GapInputs.

Module MailerSamples.
Import Py Mailer.

(** A recipient sheet with a name column before the address column. *)
Definition sheet (emails : list cell) : DataFrame :=
  {| columns := ["Name"; "Email"];
     rows := map (fun c => [Text "x"; c]) emails |}.

Definition fresh_creds : Credentials :=
  {| valid := true; expired := false; refresh_token := Some "r1" |}.

Definition stale_creds : Credentials :=
  {| valid := false; expired := true; refresh_token := Some "r0" |}.

Definition desk (emails : list cell) (creds : Credentials) : filesystem :=
  <[email_list := Workbook (sheet emails)]> (<[token_pickle := Pickle creds]> ∅).

(** Every send raises, and so does the token endpoint; the browser flow
    would succeed. *)
Definition offline : World :=
  {| refresh := fun _ => Raise (LibraryError "RefreshError");
     run_local_server := Ok fresh_creds;
     build := Ok tt;
     send := fun _ _ => None;
     writable := true |}.

Definition padded_sheet : list cell := [Text " a@b.com "].
Definition mixed_sheet : list cell := [Text " a@b.com "; Text "c@d.org"].
Definition blank_sheet : list cell := [Text "   "; NaN; Text " a@b.com "].

End MailerSamples.

Module MailerInputs.
Import Py Mailer MailerSamples.

(** There is no usable stored credential and none that could be
    refreshed. *)
Definition needs_login (fs : filesystem) : Prop :=
  fs !! token_pickle = None \/
  exists c, fs !! token_pickle = Some (Pickle c) /\ valid c = false /\
            (expired c = false \/ truthy (refresh_token c) = false).


(** A sheet with a number in the address column. *)
Definition numeric_sheet : list cell := [Other "123"; Text "a@b.com"].

(** The address column of a sheet that has one. *)
Definition email_column (df : DataFrame) : list cell :=
  match getitem_column df "Email" with
  | Ok col => col
  | Raise _ => []
  end.

Fixpoint all_space (s : string) : bool :=
  match s with
  | EmptyString => true
  | String c s' => is_space c && all_space s'
  end.

Fixpoint last_char (s : string) : option ascii :=
  match s with
  | EmptyString => None
  | String c EmptyString => Some c
  | String _ s' => last_char s'
  end.

(** Every send is accepted; the token endpoint and the browser flow both
    hand out a valid credential. *)
Definition online : World :=
  {| refresh := fun _ => Ok fresh_creds;
     run_local_server := Ok fresh_creds;
     build := Ok tt;
     send := fun _ _ => Some "id";
     writable := true |}.

(** The sends at even positions are accepted, the others raise. *)
Definition flaky : World :=
  {| refresh := fun _ => Ok fresh_creds;
     run_local_server := Ok fresh_creds;
     build := Ok tt;
     send := fun i _ => if Nat.even i then Some "id" else None;
     writable := true |}.

(** A credential that is neither valid nor expired, as one without an
    access token is. *)
Definition blank_creds : Credentials :=
  {| valid := false; expired := false; refresh_token := Some "r0" |}.

Definition plain_sheet : list cell := [Text "a@b.com"; NaN; Text "c@d.org"].


(** A desk without a token file. *)
Definition first_desk (emails : list cell) : filesystem :=
  <[email_list := Workbook (sheet emails)]> ∅.

End MailerInputs.

(** ** Properties of the follower-gap report *)

Module GapProps.
Import Py FollowerGap GapSamples.

Lemma py_eq_str (u v : string) : py_eq (PStr u) (PStr v) = true <-> u = v.
Proof. simpl. apply String.eqb_eq. Qed.

(** On usernames that are strings, [in] is membership in the list. *)
Lemma py_in_str (u : string) (l : list string) :
  py_in (PStr u) (map PStr l) = true <-> u ∈ l.
Proof.
  unfold py_in. induction l as [|v l IH]; simpl.
  - split; [discriminate | intros H; inversion H].
  - rewrite orb_true_iff, IH, elem_of_cons, String.eqb_eq. reflexivity.
Qed.

Lemma gap_row_username (e : following_entry) :
  dict_lookup "Username" (gap_row e) = Some (username_of e).
Proof. destruct e as [[u t] url]. reflexivity. Qed.

Lemma gap_row_same_username (e e' : following_entry) :
  gap_row e = gap_row e' -> username_of e = username_of e'.
Proof.
  intros H. pose proof (gap_row_username e) as He.
  rewrite H, gap_row_username in He. congruence.
Qed.

(** The rows of the comprehension are the rows of the accounts that pass
    its filter. *)
Lemma elem_of_not_following_back following followers row :
  row ∈ not_following_back following followers <->
  exists e, e ∈ following /\ row = gap_row e /\
            py_in (username_of e) followers = false.
Proof.
  induction following as [|[[u t] url] following IH]; simpl.
  - split; [intros H; inversion H | intros (e & H & _); inversion H].
  - destruct (py_in u followers) eqn:Hin; simpl.
    + rewrite IH. split.
      * intros (e & He & Hr & Hn). exists e. rewrite elem_of_cons. auto.
      * intros (e & He & Hr & Hn). apply elem_of_cons in He as [-> | He].
        -- unfold username_of in Hn. simpl in Hn. congruence.
        -- exists e. auto.
    + rewrite elem_of_cons, IH. split.
      * intros [-> | (e & He & Hr & Hn)].
        -- exists (u, t, url). rewrite elem_of_cons. auto.
        -- exists e. rewrite elem_of_cons. auto.
      * intros (e & He & Hr & Hn). apply elem_of_cons in He as [-> | He]; [auto |].
        right. exists e. auto.
Qed.

(** C1: an account of the following list has its row in the output exactly
    when its username is not among the followers, and no row of the output
    bears a username that is among them. *)
Theorem gap_rows_are_the_non_followers
    (following : list following_entry) (followers : list pyval)
    (e : following_entry) (He : e ∈ following) :
  (gap_row e ∈ not_following_back following followers <->
   py_in (username_of e) followers = false) /\
  (forall row u, row ∈ not_following_back following followers ->
     dict_lookup "Username" row = Some u -> py_in u followers = false).
Proof.
  split.
  - rewrite elem_of_not_following_back. split.
    + intros (e' & _ & Hr & Hn). apply gap_row_same_username in Hr. congruence.
    + intros Hn. exists e. auto.
  - intros row u Hrow Hu.
    apply elem_of_not_following_back in Hrow as (e' & _ & -> & Hn).
    rewrite gap_row_username in Hu. congruence.
Qed.

Lemma gap_rows_are_the_non_followers_witness :
  (PStr "a", PInt 100, PStr "u/a") ∈ sample_following /\
  (gap_row (PStr "a", PInt 100, PStr "u/a")
     ∈ not_following_back sample_following [PStr "b"] <->
   py_in (PStr "a") [PStr "b"] = false) /\
  (forall row u, row ∈ not_following_back sample_following [PStr "b"] ->
     dict_lookup "Username" row = Some u -> py_in u [PStr "b"] = false).
Proof.
  assert (He : (PStr "a", PInt 100, PStr "u/a") ∈ sample_following).
  { unfold sample_following. apply elem_of_cons. left. reflexivity. }
  split; [exact He |].
  exact (gap_rows_are_the_non_followers sample_following [PStr "b"]
           (PStr "a", PInt 100, PStr "u/a") He).
Defined.

(** The script, when both exports are read, hands the table of the
    comprehension to the writer. *)
Lemma run_writes_report (fs : filesystem) (following_data followers_data : pyval)
    (following : list following_entry) (followers : list pyval) :
  fs !! following_path = Some (JsonText following_data) ->
  fs !! followers_path = Some (JsonText followers_data) ->
  extract_following following_data = Ok following ->
  extract_followers followers_data = Ok followers ->
  run fs
  = to_excel (make_DataFrame (not_following_back following followers)) output_file fs.
Proof.
  intros Hf Hg Hef Heg. unfold run, load_json_file.
  rewrite Hf, Hg, Hef, Heg. reflexivity.
Qed.

(** On the input given in the specification: one row, for "a". *)
Example report_of_sample_exports :
  snd (run (both_files following_doc followers_doc)) !! output_file
  = Some (Workbook
            {| columns := report_columns;
               rows := [[ Some (PStr "a"); Some (PInt 100);
                          Some (PStr (hyperlink (PStr "u/a") (PStr "a"))) ]] |}).
Proof. vm_compute. reflexivity. Qed.

Lemma sublist_lookup_one {A : Type} (k l : list A) j y :
  k `sublist_of` l -> k !! j = Some y -> exists j', l !! j' = Some y.
Proof.
  intros Hsub Hj. apply list_elem_of_lookup.
  apply (sublist_subseteq _ _ Hsub). apply list_elem_of_lookup. eauto.
Qed.

(** Two elements of a sublist stand in the list in the same order. *)
Lemma sublist_lookup_order {A : Type} (k l : list A) :
  k `sublist_of` l ->
  forall i j x y, (i < j)%nat -> k !! i = Some x -> k !! j = Some y ->
  exists i' j', (i' < j')%nat /\ l !! i' = Some x /\ l !! j' = Some y.
Proof.
  induction 1 as [|a k l Hsub IH|a k l Hsub IH]; intros i j x y Hij Hi Hj.
  - discriminate.
  - destruct j as [|j]; [lia |]. simpl in Hj. destruct i as [|i]; simpl in Hi.
    + destruct (sublist_lookup_one k l j y Hsub Hj) as [j' Hj'].
      exists O, (S j'). split; [lia | auto].
    + destruct (IH i j x y) as (i' & j' & Hlt & Hi' & Hj'); [lia | auto | auto |].
      exists (S i'), (S j'). split; [lia | auto].
  - destruct (IH i j x y Hij Hi Hj) as (i' & j' & Hlt & Hi' & Hj').
    exists (S i'), (S j'). split; [lia | auto].
Qed.

(** The accounts the comprehension keeps, as a sublist of its input. *)
Lemma not_following_back_kept following followers :
  exists kept,
    kept `sublist_of` following /\
    not_following_back following followers = map gap_row kept /\
    Forall (fun e => py_in (username_of e) followers = false) kept.
Proof.
  induction following as [|[[u t] url] following (kept & Hsub & Heq & Hall)]; simpl.
  - exists []. split; [constructor | split; [reflexivity | constructor]].
  - destruct (py_in u followers) eqn:Hin; simpl.
    + exists kept. split; [by apply sublist_cons | auto].
    + exists ((u, t, url) :: kept). split; [by apply sublist_skip |].
      split; [simpl; congruence | by constructor].
Qed.

(** A comprehension that ends without an exception has one element per
    element drawn, in the same order. *)
Lemma comprehension_Forall2 {A : Type} (f : pyval -> result A)
    (l : list pyval) (ys : list A) :
  comprehension f l = Ok ys <-> Forall2 (fun x y => f x = Ok y) l ys.
Proof.
  revert ys. induction l as [|x l IH]; intros ys; simpl.
  - split.
    + intros H. injection H as <-. constructor.
    + intros H. inversion H. reflexivity.
  - destruct (f x) as [y|e] eqn:Hx; simpl.
    + destruct (comprehension f l) as [ys'|e] eqn:Hl; simpl.
      * split.
        -- intros H. injection H as <-. constructor; [exact Hx | by apply IH].
        -- intros H. inversion H as [|? y0 ? ys0 Hy Hrest]; subst.
           apply IH in Hrest. congruence.
      * split; [discriminate |].
        intros H. inversion H as [|? y0 ? ys0 Hy Hrest]; subst.
        apply IH in Hrest. discriminate.
    + split; [discriminate |].
      intros H. inversion H; subst. congruence.
Qed.

Lemma record_columns_gap_rows (kept : list following_entry) :
  fold_left (fun seen r => add_keys seen (map fst r)) (map gap_row kept) report_columns
  = report_columns.
Proof.
  induction kept as [|[[u t] url] kept IH]; [reflexivity |].
  simpl. exact IH.
Qed.

(** With at least one row the table has the three columns, in the order of
    the keys of the row dict. *)
Lemma nonempty_report_columns (e : following_entry) (kept : list following_entry) :
  columns (make_DataFrame (map gap_row (e :: kept))) = report_columns.
Proof.
  destruct e as [[u t] url]. unfold make_DataFrame, record_columns. simpl.
  apply record_columns_gap_rows.
Qed.

(** The rows of the table are the cells of the kept accounts. *)
Lemma report_rows (kept : list following_entry) :
  rows (make_DataFrame (map gap_row kept)) = map report_cells kept.
Proof.
  destruct kept as [|e kept]; [reflexivity |].
  unfold make_DataFrame at 1. cbv beta zeta.
  change (record_columns (map gap_row (e :: kept)))
    with (columns (make_DataFrame (map gap_row (e :: kept)))).
  rewrite nonempty_report_columns. cbn [rows]. rewrite map_map. reflexivity.
Qed.

(** C5: the rows of the output, and of the table built from them, are the
    rows of a sublist of the following list, so any two rows stand in the
    order of the accounts they come from. *)
Theorem gap_rows_keep_input_order
    (following : list following_entry) (followers : list pyval) :
  (exists kept,
     kept `sublist_of` following /\
     not_following_back following followers = map gap_row kept /\
     rows (make_DataFrame (not_following_back following followers))
     = map report_cells kept) /\
  (forall i j ri rj, (i < j)%nat ->
     not_following_back following followers !! i = Some ri ->
     not_following_back following followers !! j = Some rj ->
     exists i' j' ei ej,
       (i' < j')%nat /\
       following !! i' = Some ei /\ following !! j' = Some ej /\
       ri = gap_row ei /\ rj = gap_row ej).
Proof.
  destruct (not_following_back_kept following followers) as (kept & Hsub & Heq & _).
  split.
  { exists kept. split; [exact Hsub |]. split; [exact Heq |].
    rewrite Heq. apply report_rows. }
  intros i j ri rj Hij Hi Hj. rewrite Heq in Hi, Hj.
  change (map gap_row kept) with (gap_row <$> kept) in Hi, Hj.
  apply list_lookup_fmap_Some in Hi as (ei & -> & Hi).
  apply list_lookup_fmap_Some in Hj as (ej & -> & Hj).
  destruct (sublist_lookup_order kept following Hsub i j ei ej Hij Hi Hj)
    as (i' & j' & Hlt & Hi' & Hj').
  exists i', j', ei, ej. auto.
Qed.

(** C7: when every followed account follows back the row list is empty,
    and the table built from it has no columns at all: the workbook that
    is written carries no header. *)
Theorem empty_report_has_no_header :
  extract_following following_doc = Ok sample_following /\
  extract_followers mutual_followers_doc = Ok [PStr "a"; PStr "b"] /\
  not_following_back sample_following [PStr "a"; PStr "b"] = [] /\
  fst (run (both_files following_doc mutual_followers_doc)) = Ok tt /\
  snd (run (both_files following_doc mutual_followers_doc)) !! output_file
  = Some (Workbook {| columns := []; rows := [] |}).
Proof. repeat split; vm_compute; reflexivity. Qed.

Lemma not_found_message_carries_path (filename : string) :
  exists before after, not_found_message filename = before ++ filename ++ after.
Proof. unfold not_found_message. eauto. Qed.

(** C8: when one of the two inputs is missing, nothing is written; the
    run ends with a [FileNotFoundError] whose message has the missing path
    between its quotes, the following export being loaded first. *)
Theorem missing_input_raises_before_output
    (fs : filesystem)
    (Hmissing : fs !! following_path = None \/ fs !! followers_path = None) :
  snd (run fs) = fs /\
  (fs !! following_path = None ->
   fst (run fs)
   = Raise (FileNotFoundError
              ("❌ File '" ++ following_path ++ "' was not found. Please check the path."))) /\
  (forall following_data,
     fs !! following_path = Some (JsonText following_data) ->
     fst (run fs)
     = Raise (FileNotFoundError
                ("❌ File '" ++ followers_path ++ "' was not found. Please check the path."))).
Proof.
  unfold run, load_json_file.
  destruct (fs !! following_path) as [[doc| |]|] eqn:Hf; simpl.
  - destruct Hmissing as [|Hg]; [discriminate |]. rewrite Hg. simpl.
    split; [reflexivity | split; [discriminate | reflexivity]].
  - split; [reflexivity | split; discriminate].
  - split; [reflexivity | split; discriminate].
  - split; [reflexivity | split; [reflexivity | discriminate]].
Qed.

Lemma missing_input_raises_before_output_witness :
  (only_following following_doc !! following_path = None \/
   only_following following_doc !! followers_path = None) /\
  snd (run (only_following following_doc)) = only_following following_doc /\
  fst (run (only_following following_doc))
  = Raise (FileNotFoundError
             "❌ File 'followers_and_following/followers.json' was not found. Please check the path.").
Proof.
  assert (Hmissing : only_following following_doc !! following_path = None \/
                     only_following following_doc !! followers_path = None).
  { right. reflexivity. }
  split; [exact Hmissing |].
  destruct (missing_input_raises_before_output _ Hmissing) as (Hfs & _ & Hg).
  split; [exact Hfs |]. apply (Hg following_doc). reflexivity.
Defined.

(** C9: a first record without a [timestamp] key yields the sentinel; the
    outcome of the extraction is that of reading [value] and [href]. *)
Theorem missing_timestamp_defaults
    (entry : pyval) (d : list (string * pyval))
    (Hrecord : first_record entry = Ok (PDict d))
    (Hmissing : dict_lookup "timestamp" d = None) :
  extract_following_entry entry
  = (let? username := getitem_str (PDict d) "value" in
     let? url := getitem_str (PDict d) "href" in
     Ok (username, PStr "N/A", url)) /\
  extract_following_entry entry <> Raise (KeyError (PStr "timestamp")) /\
  (forall username url,
     dict_lookup "value" d = Some username -> dict_lookup "href" d = Some url ->
     extract_following_entry entry = Ok (username, PStr "N/A", url)).
Proof.
  assert (Heq : extract_following_entry entry
                = (let? username := getitem_str (PDict d) "value" in
                   let? url := getitem_str (PDict d) "href" in
                   Ok (username, PStr "N/A", url))).
  { unfold extract_following_entry. rewrite Hrecord. simpl.
    destruct (dict_lookup "value" d); simpl; [| reflexivity].
    rewrite Hmissing. reflexivity. }
  split; [exact Heq |]. split.
  - rewrite Heq. simpl.
    destruct (dict_lookup "value" d); simpl; [| discriminate].
    destruct (dict_lookup "href" d); simpl; discriminate.
  - intros username url Hv Hh. rewrite Heq. simpl. rewrite Hv. simpl.
    rewrite Hh. reflexivity.
Qed.

Lemma missing_timestamp_defaults_witness :
  first_record (account "b" None "u/b")
  = Ok (PDict [("href", PStr "u/b"); ("value", PStr "b")]) /\
  dict_lookup "timestamp" [("href", PStr "u/b"); ("value", PStr "b")] = None /\
  extract_following_entry (account "b" None "u/b")
  = Ok (PStr "b", PStr "N/A", PStr "u/b").
Proof.
  split; [reflexivity |]. split; [reflexivity |].
  refine (proj2 (proj2 (missing_timestamp_defaults (account "b" None "u/b")
            [("href", PStr "u/b"); ("value", PStr "b")] _ _)) _ _ _ _);
    reflexivity.
Defined.

(** C10: a following document that is an object without the
    [relationships_following] key gives the empty following list; the run
    then depends on the followers export alone and, when that one is read,
    writes the empty table. *)
Theorem missing_relationships_key_gives_empty_report
    (fs : filesystem) (d : list (string * pyval)) (followers_data : pyval)
    (Hfollowing : fs !! following_path = Some (JsonText (PDict d)))
    (Hkey : dict_lookup "relationships_following" d = None)
    (Hfollowers : fs !! followers_path = Some (JsonText followers_data)) :
  extract_following (PDict d) = Ok [] /\
  run fs = match extract_followers followers_data with
           | Raise e => (Raise e, fs)
           | Ok _ => (Ok tt, <[output_file := Workbook {| columns := []; rows := [] |}]> fs)
           end.
Proof.
  assert (Hext : extract_following (PDict d) = Ok []).
  { unfold extract_following. simpl. rewrite Hkey. reflexivity. }
  split; [exact Hext |].
  unfold run, load_json_file. rewrite Hfollowing, Hfollowers, Hext.
  destruct (extract_followers followers_data); reflexivity.
Qed.

Lemma missing_relationships_key_gives_empty_report_witness :
  both_files (PDict [("other", PList [])]) followers_doc !! following_path
  = Some (JsonText (PDict [("other", PList [])])) /\
  dict_lookup "relationships_following" [("other", PList [])] = None /\
  both_files (PDict [("other", PList [])]) followers_doc !! followers_path
  = Some (JsonText followers_doc) /\
  extract_following (PDict [("other", PList [])]) = Ok [] /\
  run (both_files (PDict [("other", PList [])]) followers_doc)
  = (Ok tt, <[output_file := Workbook {| columns := []; rows := [] |}]>
              (both_files (PDict [("other", PList [])]) followers_doc)).
Proof.
  split; [reflexivity |]. split; [reflexivity |]. split; [reflexivity |].
  apply (missing_relationships_key_gives_empty_report
           (both_files (PDict [("other", PList [])]) followers_doc)
           [("other", PList [])] followers_doc); reflexivity.
Defined.

End GapProps.

(** ** Properties of the bulk mailer *)

Module MailerProps.
Import Py Mailer MailerSamples.

(** *** Recipient loading *)

Lemma elem_of_clean (col : list cell) (a : string) :
  a ∈ clean col <->
  exists c, c ∈ col /\ notna c = true /\ a = strip (astype_str c).
Proof.
  unfold clean, dropna. rewrite list_elem_of_In, in_map_iff. split.
  - intros (x & <- & Hx). apply in_map_iff in Hx as (c & <- & Hc).
    apply filter_In in Hc as [Hc Hna]. exists c.
    split; [by apply list_elem_of_In | auto].
  - intros (c & Hc & Hna & ->). exists (astype_str c). split; [reflexivity |].
    apply in_map, filter_In. split; [by apply list_elem_of_In | exact Hna].
Qed.

Lemma lstrip_head (s : string) :
  match lstrip s with
  | EmptyString => True
  | String c _ => is_space c = false
  end.
Proof.
  induction s as [|c s IH]; simpl; [exact I |].
  destruct (is_space c) eqn:Hc; [exact IH | exact Hc].
Qed.

Lemma rstrip_head (c : ascii) (s : string) :
  is_space c = false -> exists r, rstrip (String c s) = String c r.
Proof.
  intros Hc. simpl. destruct (rstrip s); rewrite ?Hc; eauto.
Qed.

Lemma lstrip_fixed (c : ascii) (s : string) :
  is_space c = false -> lstrip (String c s) = String c s.
Proof. intros Hc. simpl. rewrite Hc. reflexivity. Qed.

Lemma rstrip_idempotent (s : string) : rstrip (rstrip s) = rstrip s.
Proof.
  induction s as [|c s IH]; simpl; [reflexivity |].
  destruct (rstrip s) as [|c' r] eqn:Hr.
  - destruct (is_space c) eqn:Hc; simpl; rewrite ?Hc; reflexivity.
  - simpl. simpl in IH. rewrite IH. reflexivity.
Qed.

(** Stripping leaves nothing more to strip. *)
Lemma strip_idempotent (s : string) : strip (strip s) = strip s.
Proof.
  unfold strip. pose proof (lstrip_head s) as Hh.
  destruct (lstrip s) as [|c r] eqn:Hl; [reflexivity |].
  destruct (rstrip_head c r Hh) as [r' Hr']. rewrite Hr'.
  rewrite (lstrip_fixed c r' Hh), <- Hr'. apply rstrip_idempotent.
Qed.

(** C3: a cell of white space only is not dropped: it is kept among the
    recipients as the empty address, next to the trimmed address of a
    padded cell; only the missing cell is dropped. *)
Theorem whitespace_only_cell_is_kept :
  read_emails (desk blank_sheet fresh_creds)
  = Ok (sheet blank_sheet, [""; "a@b.com"]).
Proof. vm_compute. reflexivity. Qed.

(** *** Dispatch *)

Lemma send_all_acc (w : World) (emails : list string) :
  forall i failed, send_all w i emails failed = (failed ++ send_all w i emails [])%list.
Proof.
  induction emails as [|e emails IH]; intros i failed; simpl.
  - by rewrite app_nil_r.
  - destruct (send w i e).
    + apply IH.
    + rewrite (IH (S i) (failed ++ [e])%list), (IH (S i) [e]).
      by rewrite <- app_assoc.
Qed.

(** The failed list collects the recipients whose send raised. *)
Lemma elem_of_send_all (w : World) (emails : list string) (a : string) :
  forall i, a ∈ send_all w i emails [] <->
            exists k, emails !! k = Some a /\ send w (i + k) a = None.
Proof.
  induction emails as [|e emails IH]; intros i; simpl.
  - split; [intros H; inversion H | intros (k & H & _); discriminate].
  - assert (Hshift : (exists k, emails !! k = Some a /\ send w (S i + k) a = None) ->
                     exists k, (e :: emails) !! k = Some a /\ send w (i + k) a = None).
    { intros (k & Hk & Hs). exists (S k). split; [exact Hk |].
      by replace (i + S k)%nat with (S i + k)%nat by lia. }
    destruct (send w i e) eqn:Hsend.
    + rewrite IH. split; [exact Hshift |].
      intros ([|k] & Hk & Hs); simpl in Hk.
      * injection Hk as ->. rewrite Nat.add_0_r in Hs. congruence.
      * exists k. split; [exact Hk |].
        by replace (S i + k)%nat with (i + S k)%nat by lia.
    + rewrite send_all_acc. simpl. rewrite elem_of_cons, IH. split.
      * intros [-> | H]; [| by apply Hshift].
        exists O. rewrite Nat.add_0_r. auto.
      * intros ([|k] & Hk & Hs); simpl in Hk.
        -- left. congruence.
        -- right. exists k. split; [exact Hk |].
           by replace (S i + k)%nat with (i + S k)%nat by lia.
Qed.


(** *** Rewriting the sheet *)

Lemma boolean_index_filter {A : Type} (f : A -> bool) (rs : list A) :
  boolean_index rs (map f rs) = List.filter f rs.
Proof.
  induction rs as [|r rs IH]; simpl; [reflexivity |].
  rewrite IH. reflexivity.
Qed.

Lemma remaining_df_rows (df : DataFrame) (failed : list string) (i : nat) :
  index_of "Email" (columns df) = Some i ->
  remaining_df df failed
  = Ok {| columns := columns df;
          rows := List.filter (fun r => isin failed (nth i r NaN)) (rows df) |}.
Proof.
  intros Hi. unfold remaining_df, getitem_column. rewrite Hi. simpl.
  rewrite map_map, boolean_index_filter. reflexivity.
Qed.

(** A row stays exactly when the text of its address cell, as it stands
    in the sheet, is one of the failed addresses. *)
Lemma remaining_row_iff (df df' : DataFrame) (failed : list string) (i : nat)
    (r : list cell) :
  index_of "Email" (columns df) = Some i ->
  remaining_df df failed = Ok df' ->
  (In r (rows df') <->
   In r (rows df) /\ exists s, nth i r NaN = Text s /\ s ∈ failed).
Proof.
  intros Hi Hrem. rewrite (remaining_df_rows df failed i Hi) in Hrem.
  injection Hrem as <-. simpl. rewrite filter_In.
  split; intros [Hr Hc]; (split; [exact Hr |]).
  - destruct (nth i r NaN) as [|s|shown]; simpl in Hc; [discriminate | | discriminate].
    exists s. split; [reflexivity |].
    apply existsb_exists in Hc as (x & Hx & Heq).
    apply String.eqb_eq in Heq as ->. by apply list_elem_of_In.
  - destruct Hc as (s & -> & Hs). simpl. apply existsb_exists.
    exists s. split; [by apply list_elem_of_In | apply String.eqb_refl].
Qed.

(** When every address cell is text without padding and every send fails,
    the rows that stay are those with an address, in the order of the
    sheet. *)
Lemma all_fail_unpadded_sheet (col : list cell) :
  (forall c, c ∈ col -> c = NaN \/ exists s, c = Text s /\ strip s = s) ->
  List.filter (isin (clean col)) col = dropna col.
Proof.
  intros Hfix. unfold dropna. apply filter_ext_in_iff. intros c Hc.
  apply list_elem_of_In in Hc.
  destruct (Hfix c Hc) as [-> | (s & -> & Hs)]; simpl; [reflexivity |].
  apply existsb_exists. exists s. split; [| apply String.eqb_refl].
  apply list_elem_of_In, elem_of_clean. exists (Text s).
  split; [exact Hc | split; [reflexivity | symmetry; exact Hs]].
Qed.

(** C2: a recipient read from a padded cell whose send fails is on the
    failed list under its trimmed address, which the cell of its row does
    not equal: the row is not in the rewritten sheet. *)
Theorem failed_padded_recipient_is_dropped :
  read_emails (desk padded_sheet fresh_creds) = Ok (sheet padded_sheet, ["a@b.com"]) /\
  send_all offline 0 ["a@b.com"] [] = ["a@b.com"] /\
  (run offline (desk padded_sheet fresh_creds)).1.1 = Completed /\
  (run offline (desk padded_sheet fresh_creds)).1.2 !! email_list
  = Some (Workbook {| columns := ["Name"; "Email"]; rows := [] |}).
Proof. repeat split; vm_compute; reflexivity. Qed.

(** C4: with every send failing, the rewritten sheet still loses the row
    of a padded cell, so it differs from the recipient list of the run. *)
Theorem all_fail_drops_padded_rows :
  read_emails (desk mixed_sheet fresh_creds)
  = Ok (sheet mixed_sheet, ["a@b.com"; "c@d.org"]) /\
  send_all offline 0 ["a@b.com"; "c@d.org"] [] = ["a@b.com"; "c@d.org"] /\
  (run offline (desk mixed_sheet fresh_creds)).1.1 = Completed /\
  (run offline (desk mixed_sheet fresh_creds)).1.2 !! email_list
  = Some (Workbook {| columns := ["Name"; "Email"];
                      rows := [[Text "x"; Text "c@d.org"]] |}).
Proof. repeat split; vm_compute; reflexivity. Qed.

(** *** The credential *)

(** C6, at a concrete input: with a stale token and a token endpoint
    that raises, the browser flow is not entered although it would
    succeed; the exception of the refresh ends the run. *)
Lemma failed_refresh_ends_the_run :
  stale (desk mixed_sheet stale_creds) stale_creds /\
  refresh offline stale_creds = Raise (LibraryError "RefreshError") /\
  run_local_server offline = Ok fresh_creds /\
  run offline (desk mixed_sheet stale_creds)
  = (Crashed (LibraryError "RefreshError"), desk mixed_sheet stale_creds, [RefreshAttempt]) /\
  InteractiveFlow ∉ (run offline (desk mixed_sheet stale_creds)).2.
Proof.
  assert (Hrun : run offline (desk mixed_sheet stale_creds)
                 = (Crashed (LibraryError "RefreshError"),
                    desk mixed_sheet stale_creds, [RefreshAttempt])).
  { vm_compute. reflexivity. }
  split; [repeat split; reflexivity |].
  split; [reflexivity |]. split; [reflexivity |]. split; [exact Hrun |].
  rewrite Hrun. simpl. intros H. apply elem_of_cons in H as [H | H].
  - discriminate.
  - inversion H.
Qed.

(** C6, as the script has it: a stale token is refreshed without the
    browser flow; a refresh that succeeds is saved, and one that raises
    ends the run with its exception, the token file untouched. *)
Theorem stale_token_is_refreshed_not_reauthorized
    (w : World) (fs : filesystem) (c : Credentials) (Hstale : stale fs c) :
  (forall c', refresh w c = Ok c' ->
     authorize w fs
     = (Ok c', <[token_pickle := Pickle c']> fs, [RefreshAttempt; TokenSaved c'])) /\
  (forall e, refresh w c = Raise e ->
     authorize w fs = (Raise e, fs, [RefreshAttempt])) /\
  (forall e df emails, refresh w c = Raise e ->
     read_emails fs = Ok (df, emails) ->
     run w fs = (Crashed e, fs, [RefreshAttempt])).
Proof.
  destruct Hstale as (Hfile & Hvalid & Hexpired & Htoken).
  assert (Hauth : authorize w fs
                  = match refresh w c with
                    | Raise e => (Raise e, fs, [RefreshAttempt])
                    | Ok c' => (Ok c', <[token_pickle := Pickle c']> fs,
                                [RefreshAttempt; TokenSaved c'])
                    end).
  { unfold authorize, load_token. rewrite Hfile, Hvalid.
    unfold renew. rewrite Hexpired, Htoken. reflexivity. }
  split; [| split].
  - intros c' Hr. rewrite Hauth, Hr. reflexivity.
  - intros e Hr. rewrite Hauth, Hr. reflexivity.
  - intros e df emails Hr Hread. unfold run. rewrite Hread, Hauth, Hr. reflexivity.
Qed.

Lemma stale_token_is_refreshed_not_reauthorized_witness :
  stale (desk mixed_sheet stale_creds) stale_creds /\
  authorize offline (desk mixed_sheet stale_creds)
  = (Raise (LibraryError "RefreshError"), desk mixed_sheet stale_creds, [RefreshAttempt]).
Proof.
  assert (Hstale : stale (desk mixed_sheet stale_creds) stale_creds).
  { repeat split; reflexivity. }
  split; [exact Hstale |].
  apply (proj1 (proj2 (stale_token_is_refreshed_not_reauthorized
                         offline (desk mixed_sheet stale_creds) stale_creds Hstale))).
  reflexivity.
Defined.

End MailerProps.

(** ** Further properties of the follower-gap report *)

Module GapExtras.
Import Py FollowerGap GapSamples GapInputs GapProps.

Lemma output_is_not_an_input :
  output_file <> following_path /\ output_file <> followers_path.
Proof. split; discriminate. Qed.

Lemma load_json_file_ignores_output (fs : filesystem) (f : file) (path : string) :
  path <> output_file ->
  load_json_file (<[output_file := f]> fs) path = load_json_file fs path.
Proof.
  intros Hne. unfold load_json_file. rewrite lookup_insert_ne; [reflexivity | congruence].
Qed.

Lemma rows_before_write_ignores_output (fs : filesystem) (f : file) :
  rows_before_write (<[output_file := f]> fs) = rows_before_write fs.
Proof.
  destruct output_is_not_an_input as [Hf Hg]. unfold rows_before_write.
  rewrite !load_json_file_ignores_output by congruence. reflexivity.
Qed.

(** The run is lines 69 to 100 followed by the write. *)
Lemma run_by_steps (fs : filesystem) :
  run fs = match rows_before_write fs with
           | Raise e => (Raise e, fs)
           | Ok records => to_excel (make_DataFrame records) output_file fs
           end.
Proof.
  unfold run, rows_before_write.
  destruct (load_json_file fs following_path); simpl; [| reflexivity].
  destruct (load_json_file fs followers_path); simpl; [| reflexivity].
  destruct (extract_following _); simpl; [| reflexivity].
  destruct (extract_followers _); reflexivity.
Qed.

(** The write puts a workbook at the path, whether or not it raises, and
    what it puts there does not depend on the files. *)
Lemma to_excel_overwrites (df : DataFrame) (path : string) :
  exists r sheet, forall fs,
    to_excel df path fs = (r, <[path := Workbook sheet]> fs).
Proof.
  unfold to_excel. destruct (write_cells check_string (columns df)) as [labels [e|]].
  - eexists _, _. intros fs. reflexivity.
  - destruct (write_columns _) as [written err]. eexists _, _. intros fs. reflexivity.
Qed.

(** What a run does, in one equation: an exception raised before the
    write and the files as they were, or the outcome of the write and a
    workbook at the output path, the same whatever was there before. *)
Lemma run_cases (fs : filesystem) :
  (exists e, rows_before_write fs = Raise e /\ run fs = (Raise e, fs)) \/
  (exists records r sheet,
     rows_before_write fs = Ok records /\
     run fs = (r, <[output_file := Workbook sheet]> fs) /\
     forall old, run (<[output_file := old]> fs)
                 = (r, <[output_file := Workbook sheet]> fs)).
Proof.
  destruct (rows_before_write fs) as [records|e] eqn:Hrows.
  - right. destruct (to_excel_overwrites (make_DataFrame records) output_file)
      as (r & sheet & Hwrite).
    exists records, r, sheet. split; [reflexivity |]. split.
    + rewrite run_by_steps, Hrows. apply Hwrite.
    + intros old. rewrite run_by_steps, rows_before_write_ignores_output, Hrows, Hwrite.
      by rewrite insert_insert_eq.
  - left. exists e. split; [reflexivity |]. rewrite run_by_steps, Hrows. reflexivity.
Qed.



(** A username with a control character: the write raises once the
    header is in the sheet, and the header is what the output path then
    holds. *)
Example run_on_a_control_character :
  run (both_files tainted_doc (PList []))
  = (Raise (LibraryError "IllegalCharacterError"),
     <[output_file := Workbook {| columns := report_columns; rows := [] |}]>
       (both_files tainted_doc (PList []))).
Proof. vm_compute. reflexivity. Qed.

Lemma write_cells_unchanged {A : Type} (f : A -> result A) (l : list A) :
  Forall (fun x => f x = Ok x) l -> write_cells f l = (l, None).
Proof.
  induction 1 as [|x l Hx _ IH]; simpl; [reflexivity |].
  rewrite Hx, IH. reflexivity.
Qed.

Lemma nth_map_in_range {A B : Type} (f : A -> B) (l : list A) (n : nat) (d : B) (d' : A) :
  (n < length l)%nat -> nth n (map f l) d = f (nth n l d').
Proof.
  intros Hn. rewrite (nth_indep _ d (f d')) by (by rewrite length_map).
  apply map_nth.
Qed.

Lemma report_table (kept : list following_entry) :
  kept <> [] ->
  make_DataFrame (map gap_row kept)
  = {| columns := report_columns; rows := map report_cells kept |}.
Proof.
  intros Hne. destruct kept as [|e kept]; [done |].
  pose proof (nonempty_report_columns e kept) as Hc.
  pose proof (report_rows (e :: kept)) as Hr.
  destruct (make_DataFrame (map gap_row (e :: kept))). simpl in *. congruence.
Qed.

(** When every cell can be written as it is, the write succeeds and the
    workbook holds the table. *)
Lemma writable_report_is_written (kept : list following_entry)
    (path : string) (fs : filesystem) :
  Forall writable_entry kept ->
  to_excel (make_DataFrame (map gap_row kept)) path fs
  = (Ok tt, <[path := Workbook (make_DataFrame (map gap_row kept))]> fs).
Proof.
  intros Hkept. destruct kept as [|e0 kept0] eqn:Hk; [reflexivity |].
  assert (Hdf : make_DataFrame (map gap_row kept)
                = {| columns := report_columns; rows := map report_cells kept |}).
  { apply report_table. by rewrite Hk. }
  rewrite <- Hk in *. clear Hk kept0.
  rewrite Hdf. unfold to_excel. cbn [columns rows].
  change (write_cells check_string report_columns) with (report_columns, @None exn).
  cbn [length report_columns seq map]. unfold column_of. cbn [rows].
  assert (Hcol : forall c, (c < 3)%nat ->
            write_cells write_value (map (fun r => nth c r None) (map report_cells kept))
            = (map (fun r => nth c r None) (map report_cells kept), None)).
  { intros c Hc. apply write_cells_unchanged. rewrite map_map.
    apply Forall_forall. intros x Hx.
    apply list_elem_of_In, in_map_iff in Hx as (e & <- & He).
    apply list_elem_of_In in He.
    pose proof (proj1 (Forall_forall _ _) Hkept e He) as Hw.
    unfold writable_entry in Hw. destruct e as [[u t] url].
    destruct c as [|[|[|c]]]; [| | | lia];
      [by inversion Hw
      | by inversion Hw as [|? ? _ Hw1]; inversion Hw1
      | by inversion Hw as [|? ? _ Hw1]; inversion Hw1 as [|? ? _ Hw2]; inversion Hw2]. }
  cbn [write_columns]. rewrite !Hcol by lia. cbn [write_columns].
  do 4 f_equal. unfold sheet_rows. cbn [hd length report_columns seq map nth].
  rewrite !length_map.
  apply (nth_ext _ _ [] []); [by rewrite !length_map, length_seq |].
  intros n Hn. rewrite length_map, length_seq in Hn.
  rewrite (nth_map_in_range _ (seq 0 (length kept)) n [] O) by (by rewrite length_seq).
  rewrite seq_nth by exact Hn. cbn [Nat.add].
  rewrite (nth_map_in_range report_cells kept n [] e0) by exact Hn.
  rewrite !map_map.
  rewrite !(@nth_map_in_range following_entry (option pyval) _ kept n None e0)
    by exact Hn.
  destruct (nth n kept e0) as [[u t] url]. reflexivity.
Qed.

(** X2: no path other than the output path is ever changed by a run; the
    two exports, in particular, are left as they were. *)
Theorem run_changes_only_the_output (fs : filesystem) (path : string)
    (Hother : path <> output_file) :
  snd (run fs) !! path = fs !! path.
Proof.
  destruct (run_cases fs) as [(e' & _ & H) | (records & r & sheet & _ & H & _)];
    rewrite H; simpl.
  - reflexivity.
  - apply lookup_insert_ne. congruence.
Qed.

Lemma run_changes_only_the_output_witness :
  following_path <> output_file /\
  snd (run (both_files following_doc followers_doc)) !! following_path
  = both_files following_doc followers_doc !! following_path.
Proof.
  assert (H : following_path <> output_file) by discriminate.
  split; [exact H |].
  exact (run_changes_only_the_output (both_files following_doc followers_doc) _ H).
Defined.

(** X3: running the script a second time changes nothing and ends as the
    first run did. *)
Theorem second_run_is_the_first (fs : filesystem) :
  run (snd (run fs)) = run fs.
Proof.
  destruct (run_cases fs) as [(e' & _ & H) | (records & r & sheet & _ & H & Hold)].
  - rewrite H. simpl. exact H.
  - rewrite H. simpl. apply Hold.
Qed.

(** *** Records that do not have the expected shape *)

(** X4: a comprehension raises the exception of the first element that
    fails, whatever follows it; the elements before it play no part. *)
Theorem comprehension_first_error {A : Type} (f : pyval -> result A)
    (before after : list pyval) (x : pyval) (e : exn)
    (Hbefore : Forall (fun y => exists v, f y = Ok v) before)
    (Hx : f x = Raise e) :
  comprehension f (before ++ x :: after)%list = Raise e.
Proof.
  induction Hbefore as [|y before [v Hy] _ IH]; simpl.
  - rewrite Hx. reflexivity.
  - rewrite Hy. simpl. rewrite IH. reflexivity.
Qed.

Lemma comprehension_first_error_witness :
  Forall (fun y => exists v, extract_follower y = Ok v) [account "a" None "u/a"] /\
  extract_follower (PDict []) = Raise (KeyError (PStr "string_list_data")) /\
  comprehension extract_follower
    [account "a" None "u/a"; PDict []; account "b" None "u/b"]
  = Raise (KeyError (PStr "string_list_data")).
Proof.
  assert (H1 : Forall (fun y => exists v, extract_follower y = Ok v)
                 [account "a" None "u/a"]).
  { constructor; [eexists; reflexivity | constructor]. }
  assert (H2 : extract_follower (PDict []) = Raise (KeyError (PStr "string_list_data"))).
  { reflexivity. }
  split; [exact H1 |]. split; [exact H2 |].
  exact (comprehension_first_error extract_follower [account "a" None "u/a"]
           [account "b" None "u/b"] (PDict []) _ H1 H2).
Defined.

(** X5: of a first record that lacks [value], the extraction raises
    [KeyError('value')], whether or not [href] and [timestamp] are there;
    with [value] present and [href] missing it raises [KeyError('href')]. *)
Theorem missing_required_field_raises
    (entry : pyval) (d : list (string * pyval))
    (Hrecord : first_record entry = Ok (PDict d)) :
  (dict_lookup "value" d = None ->
   extract_following_entry entry = Raise (KeyError (PStr "value")) /\
   extract_follower entry = Raise (KeyError (PStr "value"))) /\
  (forall username, dict_lookup "value" d = Some username ->
     dict_lookup "href" d = None ->
     extract_following_entry entry = Raise (KeyError (PStr "href")) /\
     extract_follower entry = Ok username).
Proof.
  split.
  - intros Hv. unfold extract_following_entry, extract_follower.
    rewrite Hrecord. simpl. rewrite Hv. split; reflexivity.
  - intros username Hv Hh. unfold extract_following_entry, extract_follower.
    rewrite Hrecord. simpl. rewrite Hv. simpl.
    destruct (dict_lookup "timestamp" d); simpl; rewrite Hh; split; reflexivity.
Qed.

Lemma missing_required_field_raises_witness :
  first_record (PDict [("string_list_data", PList [PDict [("value", PStr "a")]])])
  = Ok (PDict [("value", PStr "a")]) /\
  extract_following_entry
    (PDict [("string_list_data", PList [PDict [("value", PStr "a")]])])
  = Raise (KeyError (PStr "href")).
Proof.
  split; [reflexivity |].
  refine (proj1 (proj2 (missing_required_field_raises
            (PDict [("string_list_data", PList [PDict [("value", PStr "a")]])])
            [("value", PStr "a")] _) (PStr "a") _ _)); reflexivity.
Defined.

(** X6: a record that is an object without [string_list_data] raises
    [KeyError('string_list_data')] in both extractions, and one whose
    [string_list_data] is the empty list raises [IndexError]. *)
Theorem record_without_string_list_data (d : list (string * pyval)) :
  (dict_lookup "string_list_data" d = None ->
   extract_following_entry (PDict d) = Raise (KeyError (PStr "string_list_data")) /\
   extract_follower (PDict d) = Raise (KeyError (PStr "string_list_data"))) /\
  (dict_lookup "string_list_data" d = Some (PList []) ->
   extract_following_entry (PDict d) = Raise IndexError /\
   extract_follower (PDict d) = Raise IndexError).
Proof.
  unfold extract_following_entry, extract_follower, first_record. simpl.
  split; intros ->; split; reflexivity.
Qed.

Lemma record_without_string_list_data_witness :
  dict_lookup "string_list_data" [("title", PStr "t")] = None /\
  extract_following_entry (PDict [("title", PStr "t")])
  = Raise (KeyError (PStr "string_list_data")) /\
  extract_follower (PDict [("title", PStr "t")])
  = Raise (KeyError (PStr "string_list_data")).
Proof.
  split; [reflexivity |].
  apply (proj1 (record_without_string_list_data [("title", PStr "t")])).
  reflexivity.
Defined.

(** X7: a following export that decodes to an array, not an object, has
    no [get]: the run ends with [AttributeError] once both files are
    read, whatever the followers export holds, and writes nothing. *)
Theorem following_array_raises
    (fs : filesystem) (l : list pyval) (followers_data : pyval)
    (Hfollowing : fs !! following_path = Some (JsonText (PList l)))
    (Hfollowers : fs !! followers_path = Some (JsonText followers_data)) :
  run fs = (Raise AttributeError, fs).
Proof.
  unfold run, load_json_file. rewrite Hfollowing, Hfollowers. reflexivity.
Qed.

Lemma following_array_raises_witness :
  both_files followers_doc following_doc !! following_path
  = Some (JsonText followers_doc) /\
  both_files followers_doc following_doc !! followers_path
  = Some (JsonText following_doc) /\
  run (both_files followers_doc following_doc)
  = (Raise AttributeError, both_files followers_doc following_doc).
Proof.
  split; [reflexivity |]. split; [reflexivity |].
  apply (following_array_raises (both_files followers_doc following_doc)
           [account "b" (Some 5) "u/b"] following_doc); reflexivity.
Defined.

(** X8: the default of [get] serves an absent key only.  When
    [relationships_following] is present and null, nothing can be drawn
    from it and the extraction raises [TypeError]. *)
Theorem null_relationships_raise (d : list (string * pyval))
    (Hnull : dict_lookup "relationships_following" d = Some PNone) :
  extract_following (PDict d) = Raise TypeError.
Proof. unfold extract_following. simpl. rewrite Hnull. reflexivity. Qed.

Lemma null_relationships_raise_witness :
  dict_lookup "relationships_following" [("relationships_following", PNone)]
  = Some PNone /\
  extract_following (PDict [("relationships_following", PNone)]) = Raise TypeError.
Proof.
  split; [reflexivity |].
  apply (null_relationships_raise [("relationships_following", PNone)]).
  reflexivity.
Defined.

(** X9: a followers export that decodes to a non-empty object is iterated
    by its keys, which are strings and cannot be subscripted by a key:
    the extraction raises [TypeError].  The empty object gives no
    follower at all. *)
Theorem followers_document_is_an_object :
  (forall k v d, extract_followers (PDict ((k, v) :: d)) = Raise TypeError) /\
  extract_followers (PDict []) = Ok [].
Proof. split; reflexivity. Qed.

(** *** The comparison of the two lists *)

Lemma not_following_back_app (l1 l2 : list following_entry) (followers : list pyval) :
  not_following_back (l1 ++ l2)%list followers
  = (not_following_back l1 followers ++ not_following_back l2 followers)%list.
Proof.
  induction l1 as [|[[u t] url] l1 IH]; simpl; [reflexivity |].
  destruct (py_in u followers); simpl; rewrite IH; reflexivity.
Qed.

(** With no follower at all every followed account is reported, one
    row each, in the order of the export. *)
Lemma no_followers_reports_everyone (following : list following_entry) :
  not_following_back following [] = map gap_row following.
Proof.
  induction following as [|[[u t] url] following IH]; simpl; [reflexivity |].
  rewrite IH. reflexivity.
Qed.

(** X10: the report is empty exactly when every followed account is
    found among the followers. *)
Theorem empty_report_iff_all_follow_back
    (following : list following_entry) (followers : list pyval) :
  not_following_back following followers = [] <->
  Forall (fun e => py_in (username_of e) followers = true) following.
Proof.
  induction following as [|[[u t] url] following IH]; simpl.
  - split; [constructor | reflexivity].
  - destruct (py_in u followers) eqn:Hin; simpl.
    + rewrite IH. split.
      * intros H. constructor; [exact Hin | exact H].
      * intros H. by inversion H.
    + split; [discriminate |].
      intros H. inversion H as [|? ? Hu _]; subst.
      unfold username_of in Hu. simpl in Hu. congruence.
Qed.

(** X11: every followed account is either reported or found among the
    followers: the rows and the accounts followed back add up to the
    following list. *)
Theorem rows_and_mutuals_add_up
    (following : list following_entry) (followers : list pyval) :
  (length (not_following_back following followers)
   + length (List.filter (fun e => py_in (username_of e) followers) following))%nat
  = length following.
Proof.
  induction following as [|[[u t] url] following IH]; simpl; [reflexivity |].
  unfold username_of at 1. simpl.
  destruct (py_in u followers); simpl; lia.
Qed.

Lemma py_in_app (x : pyval) (l1 l2 : list pyval) :
  py_in x (l1 ++ l2)%list = py_in x l1 || py_in x l2.
Proof. unfold py_in. apply existsb_app. Qed.

(** X12: more followers can only shorten the report: the rows reported
    against a longer followers list are a sublist of those reported
    against the shorter one. *)
Theorem more_followers_fewer_rows
    (following : list following_entry) (followers more : list pyval) :
  not_following_back following (followers ++ more)%list
    `sublist_of` not_following_back following followers.
Proof.
  induction following as [|[[u t] url] following IH]; simpl; [constructor |].
  rewrite py_in_app.
  destruct (py_in u followers); simpl; [exact IH |].
  destruct (py_in u more); simpl.
  - by apply sublist_cons.
  - by apply sublist_skip.
Qed.

(** X13: the followers are used as a set: two followers lists with the
    same members, in whatever order and however often repeated, give the
    same report. *)
Theorem followers_order_is_irrelevant
    (following : list following_entry) (followers followers' : list pyval)
    (Hsame : forall x, x ∈ followers <-> x ∈ followers') :
  not_following_back following followers = not_following_back following followers'.
Proof.
  assert (Hin : forall u, py_in u followers = py_in u followers').
  { intros u. unfold py_in. apply eq_true_iff_eq.
    rewrite !existsb_exists. split; intros (x & Hx & Heq); exists x;
      (split; [apply list_elem_of_In, Hsame, list_elem_of_In, Hx | exact Heq]). }
  induction following as [|[[u t] url] following IH]; simpl; [reflexivity |].
  rewrite Hin, IH. reflexivity.
Qed.

Lemma followers_order_is_irrelevant_witness :
  (forall x, x ∈ [PStr "b"; PStr "c"] <-> x ∈ [PStr "c"; PStr "b"; PStr "c"]) /\
  not_following_back sample_following [PStr "b"; PStr "c"]
  = not_following_back sample_following [PStr "c"; PStr "b"; PStr "c"].
Proof.
  assert (H : forall x, x ∈ [PStr "b"; PStr "c"] <-> x ∈ [PStr "c"; PStr "b"; PStr "c"]).
  { intros x. rewrite !elem_of_cons. rewrite !elem_of_nil. tauto. }
  split; [exact H |].
  exact (followers_order_is_irrelevant sample_following _ _ H).
Defined.

(** *** From the exports to the workbook *)

(** X14: of a record only the first element of [string_list_data] is
    read, and of that element only [value], [timestamp] and [href]:
    further elements and further keys change nothing. *)
Theorem only_the_first_record_is_read
    (d r : list (string * pyval)) (rest : list pyval) (username url : pyval)
    (Hlist : dict_lookup "string_list_data" d = Some (PList (PDict r :: rest)))
    (Hvalue : dict_lookup "value" r = Some username)
    (Hhref : dict_lookup "href" r = Some url) :
  extract_following_entry (PDict d)
  = Ok (username,
        match dict_lookup "timestamp" r with
        | Some t => t
        | None => PStr "N/A"
        end,
        url) /\
  extract_follower (PDict d) = Ok username.
Proof.
  unfold extract_following_entry, extract_follower, first_record. simpl.
  rewrite Hlist. simpl. rewrite Hvalue. simpl. rewrite Hhref.
  destruct (dict_lookup "timestamp" r); split; reflexivity.
Qed.

Lemma only_the_first_record_is_read_witness :
  extract_following_entry
    (PDict [ ("media_list_data", PList []);
             ("string_list_data",
              PList [ PDict [("href", PStr "u/a"); ("value", PStr "a");
                             ("timestamp", PInt 100)];
                      PDict [("value", PStr "z")] ]) ])
  = Ok (PStr "a", PInt 100, PStr "u/a").
Proof.
  refine (proj1 (only_the_first_record_is_read _
            [("href", PStr "u/a"); ("value", PStr "a"); ("timestamp", PInt 100)]
            [PDict [("value", PStr "z")]] (PStr "a") (PStr "u/a") _ _ _));
    reflexivity.
Defined.

(** X15: when at least one account is reported, the table has the three
    documented columns in their order, one row per reported account and
    three cells in every row. *)
Theorem nonempty_report_has_the_header
    (following : list following_entry) (followers : list pyval)
    (Hrows : not_following_back following followers <> []) :
  columns (make_DataFrame (not_following_back following followers)) = report_columns /\
  length (rows (make_DataFrame (not_following_back following followers)))
  = length (not_following_back following followers) /\
  Forall (fun r => length r = 3%nat)
         (rows (make_DataFrame (not_following_back following followers))).
Proof.
  destruct (not_following_back_kept following followers) as (kept & _ & Heq & _).
  rewrite Heq in *. destruct kept as [|e kept]; [done |].
  split; [apply nonempty_report_columns |].
  rewrite report_rows, !length_map. split; [reflexivity |].
  apply Forall_forall. intros r Hr.
  apply list_elem_of_In, in_map_iff in Hr as (e' & <- & _). reflexivity.
Qed.

Lemma nonempty_report_has_the_header_witness :
  not_following_back sample_following [PStr "b"] <> [] /\
  columns (make_DataFrame (not_following_back sample_following [PStr "b"]))
  = report_columns.
Proof.
  assert (H : not_following_back sample_following [PStr "b"] <> []) by discriminate.
  split; [exact H |].
  exact (proj1 (nonempty_report_has_the_header sample_following [PStr "b"] H)).
Defined.

(** X16: on exports whose usernames are strings, the usernames of the
    report are those of the following list that equal, character for
    character, no follower's username; they come in the order of the
    following list. *)
Theorem reported_usernames
    (following : list (string * pyval * pyval)) (names : list string) :
  omap (dict_lookup "Username")
       (not_following_back
          (map (fun e => (PStr (fst (fst e)), snd (fst e), snd e)) following)
          (map PStr names))
  = map PStr (List.filter (fun u => negb (existsb (String.eqb u) names))
                          (map (fun e => fst (fst e)) following)).
Proof.
  assert (Hin : forall u, py_in (PStr u) (map PStr names) = existsb (String.eqb u) names).
  { intros u. unfold py_in. induction names as [|n names IH]; [reflexivity |].
    cbn [map existsb]. f_equal. exact IH. }
  induction following as [|[[u t] url] following IH]; simpl; [reflexivity |].
  rewrite Hin. destruct (existsb (String.eqb u) names); simpl.
  - exact IH.
  - f_equal. exact IH.
Qed.

End GapExtras.

(** ** Further properties of the bulk mailer *)

Module MailerExtras.
Import Py Mailer MailerSamples MailerInputs MailerProps.

(** *** The credential *)

(** X17: a stored credential that is valid is used as it is: no refresh,
    no browser flow, and the token file is not rewritten. *)
Theorem valid_token_is_used_as_is
    (w : World) (fs : filesystem) (c : Credentials)
    (Hfile : fs !! token_pickle = Some (Pickle c))
    (Hvalid : valid c = true) :
  authorize w fs = (Ok c, fs, []).
Proof. unfold authorize, load_token. rewrite Hfile, Hvalid. reflexivity. Qed.

Lemma valid_token_is_used_as_is_witness :
  desk plain_sheet fresh_creds !! token_pickle = Some (Pickle fresh_creds) /\
  valid fresh_creds = true /\
  authorize offline (desk plain_sheet fresh_creds)
  = (Ok fresh_creds, desk plain_sheet fresh_creds, []).
Proof.
  split; [reflexivity |]. split; [reflexivity |].
  apply (valid_token_is_used_as_is offline (desk plain_sheet fresh_creds) fresh_creds);
    reflexivity.
Defined.

(** X18: without a token file, and with a stored credential that is
    invalid but not expired or has no refresh token, the browser flow is
    run and no refresh is attempted; its credential is saved, and its
    exception ends the authorization with the token file untouched. *)
Theorem login_when_nothing_to_refresh
    (w : World) (fs : filesystem) (Hlogin : needs_login fs) :
  authorize w fs
  = match run_local_server w with
    | Raise e => (Raise e, fs, [InteractiveFlow])
    | Ok c' => (Ok c', <[token_pickle := Pickle c']> fs,
                [InteractiveFlow; TokenSaved c'])
    end.
Proof.
  unfold authorize, load_token.
  destruct Hlogin as [Hnone | (c & Hfile & Hvalid & Hwhy)].
  - rewrite Hnone. reflexivity.
  - rewrite Hfile, Hvalid. unfold renew.
    destruct Hwhy as [-> | ->]; rewrite ?andb_false_r; reflexivity.
Qed.

Lemma login_when_nothing_to_refresh_witness :
  needs_login (desk plain_sheet blank_creds) /\
  authorize online (desk plain_sheet blank_creds)
  = (Ok fresh_creds, <[token_pickle := Pickle fresh_creds]> (desk plain_sheet blank_creds),
     [InteractiveFlow; TokenSaved fresh_creds]).
Proof.
  assert (H : needs_login (desk plain_sheet blank_creds)).
  { right. exists blank_creds. split; [reflexivity |]. split; [reflexivity |].
    left. reflexivity. }
  split; [exact H |].
  exact (login_when_nothing_to_refresh online (desk plain_sheet blank_creds) H).
Defined.

Ltac authorize_cases w fs :=
  unfold authorize, load_token, renew;
  destruct (fs !! token_pickle) as [[df0|c0|]|];
  [ | destruct (valid c0);
      [ | destruct (expired c0 && truthy (refresh_token c0));
          [ destruct (refresh w c0) | destruct (run_local_server w) ] ]
    | | destruct (run_local_server w) ].

(** X19: in one authorization the refresh and the browser flow are never
    both attempted, each at most once, and the token file is written only
    after one of them has handed out a credential. *)
Theorem authorization_attempts (w : World) (fs : filesystem) :
  let tr := snd (authorize w fs) in
  tr = [] \/ tr = [RefreshAttempt] \/ tr = [InteractiveFlow] \/
  (exists c, fst (fst (authorize w fs)) = Ok c /\
             (tr = [RefreshAttempt; TokenSaved c] \/
              tr = [InteractiveFlow; TokenSaved c])).
Proof.
  authorize_cases w fs; simpl; eauto 10.
Qed.

(** The authorization changes no file but the token file. *)
Lemma authorize_changes_only_the_token
    (w : World) (fs : filesystem) (path : string)
    (Hother : path <> token_pickle) :
  snd (fst (authorize w fs)) !! path = fs !! path.
Proof.
  authorize_cases w fs; simpl; try reflexivity;
    apply lookup_insert_ne; congruence.
Qed.

Lemma authorize_leaves_the_credential (w : World) (fs fs1 : filesystem)
    (c : Credentials) (tr : list auth_event) :
  authorize w fs = (Ok c, fs1, tr) -> fs1 !! token_pickle = Some (Pickle c).
Proof.
  unfold authorize, load_token, renew.
  destruct (fs !! token_pickle) as [[df0|c0|]|] eqn:Hfile; [discriminate | | discriminate |].
  - destruct (valid c0).
    + intros H. injection H as <- <- <-. exact Hfile.
    + destruct (expired c0 && truthy (refresh_token c0)).
      * destruct (refresh w c0); [| discriminate].
        intros H. injection H as <- <- <-. apply lookup_insert_eq.
      * destruct (run_local_server w); [| discriminate].
        intros H. injection H as <- <- <-. apply lookup_insert_eq.
  - destruct (run_local_server w); [| discriminate].
    intros H. injection H as <- <- <-. apply lookup_insert_eq.
Qed.

(** X20: the credential an authorization ends with is the one the token
    file then holds; when it is valid, the next authorization finds it
    and does nothing else, whatever the outside world is then. *)
Theorem saved_token_is_found_again
    (w w' : World) (fs fs1 : filesystem) (c : Credentials) (tr : list auth_event)
    (Hauth : authorize w fs = (Ok c, fs1, tr))
    (Hvalid : valid c = true) :
  load_token fs1 = Ok (Some c) /\ authorize w' fs1 = (Ok c, fs1, []).
Proof.
  apply authorize_leaves_the_credential in Hauth.
  split.
  - unfold load_token. rewrite Hauth. reflexivity.
  - unfold authorize, load_token. rewrite Hauth, Hvalid. reflexivity.
Qed.

Lemma saved_token_is_found_again_witness :
  authorize online (first_desk plain_sheet)
  = (Ok fresh_creds, <[token_pickle := Pickle fresh_creds]> (first_desk plain_sheet),
     [InteractiveFlow; TokenSaved fresh_creds]) /\
  valid fresh_creds = true /\
  authorize offline (<[token_pickle := Pickle fresh_creds]> (first_desk plain_sheet))
  = (Ok fresh_creds, <[token_pickle := Pickle fresh_creds]> (first_desk plain_sheet), []).
Proof.
  assert (H : authorize online (first_desk plain_sheet)
              = (Ok fresh_creds,
                 <[token_pickle := Pickle fresh_creds]> (first_desk plain_sheet),
                 [InteractiveFlow; TokenSaved fresh_creds])).
  { reflexivity. }
  split; [exact H |]. split; [reflexivity |].
  exact (proj2 (saved_token_is_found_again online offline _ _ _ _ H eq_refl)).
Defined.

(** *** Reading the sheet *)



Lemma append_cons (c : ascii) (a b : string) : String c a ++ b = String c (a ++ b).
Proof. reflexivity. Qed.

Lemma append_empty (b : string) : EmptyString ++ b = b.
Proof. reflexivity. Qed.

Lemma lstrip_split (s : string) :
  exists pre, s = pre ++ lstrip s /\ all_space pre = true.
Proof.
  induction s as [|c s (pre & Hs & Hpre)]; simpl.
  - exists EmptyString. split; reflexivity.
  - destruct (is_space c) eqn:Hc.
    + exists (String c pre). rewrite append_cons, <- Hs. simpl. rewrite Hc, Hpre.
      split; reflexivity.
    + exists EmptyString. split; reflexivity.
Qed.

Lemma rstrip_split (s : string) :
  exists suf, s = rstrip s ++ suf /\ all_space suf = true.
Proof.
  induction s as [|c s (suf & Hs & Hsuf)]; simpl.
  - exists EmptyString. split; reflexivity.
  - destruct (rstrip s) as [|c' r] eqn:Hr.
    + rewrite append_empty in Hs. subst s. destruct (is_space c) eqn:Hc.
      * exists (String c suf). simpl. rewrite Hc, Hsuf. split; reflexivity.
      * exists suf. split; [reflexivity | exact Hsuf].
    + exists suf. split; [| exact Hsuf]. rewrite append_cons, <- Hs. reflexivity.
Qed.

Lemma rstrip_last (s : string) (c : ascii) :
  last_char (rstrip s) = Some c -> is_space c = false.
Proof.
  induction s as [|a s IH]; simpl; [discriminate |].
  destruct (rstrip s) as [|c' r] eqn:Hr.
  - destruct (is_space a) eqn:Ha; simpl; [discriminate |]. congruence.
  - intros H. apply IH. exact H.
Qed.

Lemma strip_first (s : string) :
  match strip s with
  | EmptyString => True
  | String c _ => is_space c = false
  end.
Proof.
  unfold strip. pose proof (lstrip_head s) as Hh.
  destruct (lstrip s) as [|c r]; [exact I |].
  destruct (rstrip_head c r Hh) as [r' ->]. exact Hh.
Qed.

(** X22: every recipient is the text of a cell of the column, or the
    string made of a cell that is not text, with white space taken off its
    two ends and nothing else changed; it neither begins nor ends with
    white space. *)
Theorem recipients_are_trimmed_cells (col : list cell) (a : string)
    (Ha : a ∈ clean col) :
  (exists s pre suf,
     (Text s ∈ col \/ Other s ∈ col) /\ s = pre ++ a ++ suf /\
     all_space pre = true /\ all_space suf = true) /\
  match a with
  | EmptyString => True
  | String c _ => is_space c = false
  end /\
  (forall c, last_char a = Some c -> is_space c = false).
Proof.
  apply elem_of_clean in Ha as (c & Hc & Hna & ->). split; [| split].
  - destruct (lstrip_split (astype_str c)) as (pre & Hpre & Hpre_space).
    destruct (rstrip_split (lstrip (astype_str c))) as (suf & Hsuf & Hsuf_space).
    exists (astype_str c), pre, suf. split.
    + destruct c as [|s|s]; [discriminate | by left | by right].
    + split; [| split; assumption].
      unfold strip. rewrite <- Hsuf. exact Hpre.
  - apply strip_first.
  - intros c0. apply rstrip_last.
Qed.

Lemma recipients_are_trimmed_cells_witness :
  "a@b.com" ∈ clean blank_sheet /\
  exists s pre suf,
    (Text s ∈ blank_sheet \/ Other s ∈ blank_sheet) /\ s = pre ++ "a@b.com" ++ suf /\
    all_space pre = true /\ all_space suf = true.
Proof.
  assert (H : "a@b.com" ∈ clean blank_sheet).
  { apply list_elem_of_In. right. left. reflexivity. }
  split; [exact H |].
  exact (proj1 (recipients_are_trimmed_cells blank_sheet "a@b.com" H)).
Defined.

(** *** Dispatch and the rewritten sheet *)

(** What a run does once the sheet is read, the credential obtained and
    the service built. *)
Lemma run_completed (w : World) (fs fs1 : filesystem) (df : DataFrame)
    (emails : list string) (c : Credentials) (tr : list auth_event) :
  read_emails fs = Ok (df, emails) ->
  authorize w fs = (Ok c, fs1, tr) ->
  build w = Ok tt ->
  run w fs = (Completed, update_excel w df (send_all w 0 emails []) fs1, tr).
Proof.
  intros Hread Hauth Hbuild. unfold run. rewrite Hread, Hauth, Hbuild. reflexivity.
Qed.

Lemma read_emails_column (fs : filesystem) (df : DataFrame) (emails : list string) :
  read_emails fs = Ok (df, emails) ->
  fs !! email_list = Some (Workbook df) /\
  exists i, index_of "Email" (columns df) = Some i /\
            email_column df = map (fun r => nth i r NaN) (rows df) /\
            emails = clean (email_column df).
Proof.
  unfold read_emails, read_excel, email_column, getitem_column.
  destruct (fs !! email_list) as [[df0|c0|]|]; simpl; try discriminate.
  destruct (index_of "Email" (columns df0)) as [i|] eqn:Hi; simpl; [| discriminate].
  intros H. injection H as <- <-. split; [reflexivity |].
  exists i. rewrite Hi. split; [reflexivity |]. split; reflexivity.
Qed.

Lemma boolean_index_sublist {A : Type} (rs : list A) (mask : list bool) :
  boolean_index rs mask `sublist_of` rs.
Proof.
  revert mask. induction rs as [|r rs IH]; intros [|b mask]; simpl;
    try apply sublist_nil_l.
  destruct b; [by apply sublist_skip | by apply sublist_cons].
Qed.

(** X23: the failed list holds recipients only, in the order in which they
    were tried, and what was on it before a send stays on it. *)
Theorem failed_list_is_a_sublist (w : World) (emails acc : list string) (i : nat) :
  exists failed,
    send_all w i emails acc = (acc ++ failed)%list /\
    failed `sublist_of` emails /\
    (length failed <= length emails)%nat.
Proof.
  exists (send_all w i emails []). split; [apply send_all_acc |].
  assert (Hsub : send_all w i emails [] `sublist_of` emails).
  { revert i. induction emails as [|e emails IH]; intros i; simpl; [constructor |].
    destruct (send w i e).
    - by apply sublist_cons.
    - rewrite send_all_acc. simpl. by apply sublist_skip. }
  split; [exact Hsub | by apply sublist_length].
Qed.

Lemma send_all_all_accepted (w : World) (emails : list string) :
  (forall i a, send w i a <> None) ->
  forall i, send_all w i emails [] = [].
Proof.
  intros Hsend. induction emails as [|e emails IH]; intros i; simpl; [reflexivity |].
  destruct (send w i e) eqn:He; [apply IH | by apply Hsend in He].
Qed.

(** X24: when every send is accepted the sheet is rewritten with its
    columns and not a single row. *)
Theorem all_accepted_leaves_the_header
    (w : World) (fs fs1 : filesystem) (df : DataFrame) (emails : list string)
    (c : Credentials) (tr : list auth_event)
    (Hread : read_emails fs = Ok (df, emails))
    (Hauth : authorize w fs = (Ok c, fs1, tr))
    (Hbuild : build w = Ok tt)
    (Hsend : forall i a, send w i a <> None)
    (Hwrite : writable w = true) :
  run w fs
  = (Completed,
     <[email_list := Workbook {| columns := columns df; rows := [] |}]> fs1, tr).
Proof.
  rewrite (run_completed w fs fs1 df emails c tr Hread Hauth Hbuild).
  rewrite (send_all_all_accepted w emails Hsend).
  apply read_emails_column in Hread as (_ & i & Hi & _ & _).
  unfold update_excel. rewrite (remaining_df_rows df [] i Hi), Hwrite.
  do 4 f_equal. induction (rows df) as [|r rs IH]; simpl; [reflexivity |].
  destruct (nth i r NaN); simpl; exact IH.
Qed.

Lemma all_accepted_leaves_the_header_witness :
  read_emails (desk plain_sheet fresh_creds)
  = Ok (sheet plain_sheet, ["a@b.com"; "c@d.org"]) /\
  authorize online (desk plain_sheet fresh_creds)
  = (Ok fresh_creds, desk plain_sheet fresh_creds, []) /\
  build online = Ok tt /\
  (forall i a, send online i a <> None) /\
  writable online = true /\
  run online (desk plain_sheet fresh_creds)
  = (Completed,
     <[email_list := Workbook {| columns := ["Name"; "Email"]; rows := [] |}]>
       (desk plain_sheet fresh_creds), []).
Proof.
  assert (H1 : read_emails (desk plain_sheet fresh_creds)
               = Ok (sheet plain_sheet, ["a@b.com"; "c@d.org"])) by reflexivity.
  assert (H2 : authorize online (desk plain_sheet fresh_creds)
               = (Ok fresh_creds, desk plain_sheet fresh_creds, [])) by reflexivity.
  assert (H3 : forall i a, send online i a <> None) by (intros i a; discriminate).
  split; [exact H1 |]. split; [exact H2 |]. split; [reflexivity |].
  split; [exact H3 |]. split; [reflexivity |].
  exact (all_accepted_leaves_the_header online _ _ _ _ _ _ H1 H2 eq_refl H3 eq_refl).
Defined.

Lemma rewritten_rows_sublist (df df' : DataFrame) (failed : list string) :
  remaining_df df failed = Ok df' ->
  columns df' = columns df /\ rows df' `sublist_of` rows df.
Proof.
  unfold remaining_df.
  destruct (getitem_column df "Email") as [col|]; simpl; [| discriminate].
  intros H. injection H as <-. simpl.
  split; [reflexivity | apply boolean_index_sublist].
Qed.

(** X25: the rewritten sheet has the columns of the sheet that was read,
    and its rows are rows of that sheet, unchanged and in their order:
    nothing is added, edited or moved. *)
Theorem rewritten_sheet_is_part_of_the_old
    (df df' : DataFrame) (failed : list string)
    (Hrem : remaining_df df failed = Ok df') :
  columns df' = columns df /\ rows df' `sublist_of` rows df.
Proof. exact (rewritten_rows_sublist df df' failed Hrem). Qed.

Lemma rewritten_sheet_is_part_of_the_old_witness :
  remaining_df (sheet mixed_sheet) ["a@b.com"; "c@d.org"]
  = Ok {| columns := ["Name"; "Email"]; rows := [[Text "x"; Text "c@d.org"]] |} /\
  [[Text "x"; Text "c@d.org"]] `sublist_of` rows (sheet mixed_sheet).
Proof.
  assert (H : remaining_df (sheet mixed_sheet) ["a@b.com"; "c@d.org"]
              = Ok {| columns := ["Name"; "Email"];
                      rows := [[Text "x"; Text "c@d.org"]] |}) by reflexivity.
  split; [exact H |].
  exact (proj2 (rewritten_sheet_is_part_of_the_old _ _ _ H)).
Defined.

(** X26: a row is in the rewritten sheet exactly when a send failed whose
    recipient is, letter for letter, the text in the address cell of the
    row. *)
Theorem row_stays_iff_its_text_failed
    (w : World) (df df' : DataFrame) (i : nat) (r : list cell)
    (Hi : index_of "Email" (columns df) = Some i)
    (Hrem : remaining_df df (send_all w 0 (clean (email_column df)) []) = Ok df') :
  r ∈ rows df' <->
  r ∈ rows df /\
  exists s k, nth i r NaN = Text s /\
              clean (email_column df) !! k = Some s /\ send w k s = None.
Proof.
  rewrite !list_elem_of_In, (remaining_row_iff df df' _ i r Hi Hrem).
  split; intros [Hr Hc]; (split; [exact Hr |]).
  - destruct Hc as (s & Hs & Hfailed).
    apply (elem_of_send_all w _ s 0) in Hfailed as (k & Hk & Hsend).
    exists s, k. auto.
  - destruct Hc as (s & k & Hs & Hk & Hsend). exists s. split; [exact Hs |].
    apply (elem_of_send_all w _ s 0). exists k. auto.
Qed.

Lemma row_stays_iff_its_text_failed_witness :
  index_of "Email" (columns (sheet plain_sheet)) = Some 1%nat /\
  remaining_df (sheet plain_sheet)
    (send_all flaky 0 (clean (email_column (sheet plain_sheet))) [])
  = Ok {| columns := ["Name"; "Email"]; rows := [[Text "x"; Text "c@d.org"]] |} /\
  ([Text "x"; Text "c@d.org"] ∈ [[Text "x"; Text "c@d.org"]] <->
   [Text "x"; Text "c@d.org"] ∈ rows (sheet plain_sheet) /\
   exists s k, nth 1 [Text "x"; Text "c@d.org"] NaN = Text s /\
               clean (email_column (sheet plain_sheet)) !! k = Some s /\
               send flaky k s = None).
Proof.
  assert (H1 : index_of "Email" (columns (sheet plain_sheet)) = Some 1%nat)
    by reflexivity.
  assert (H2 : remaining_df (sheet plain_sheet)
                 (send_all flaky 0 (clean (email_column (sheet plain_sheet))) [])
               = Ok {| columns := ["Name"; "Email"];
                       rows := [[Text "x"; Text "c@d.org"]] |}) by reflexivity.
  split; [exact H1 |]. split; [exact H2 |].
  exact (row_stays_iff_its_text_failed flaky _ _ _ [Text "x"; Text "c@d.org"] H1 H2).
Defined.

Lemma filter_sublist_of {A : Type} (f : A -> bool) (l1 l2 : list A) :
  l1 `sublist_of` l2 -> List.filter f l1 `sublist_of` List.filter f l2.
Proof.
  induction 1 as [|x l1 l2 _ IH|x l1 l2 _ IH]; simpl.
  - constructor.
  - destruct (f x); [by apply sublist_skip | exact IH].
  - destruct (f x); [by apply sublist_cons | exact IH].
Qed.

Lemma map_sublist_of {A B : Type} (f : A -> B) (l1 l2 : list A) :
  l1 `sublist_of` l2 -> map f l1 `sublist_of` map f l2.
Proof.
  induction 1; simpl; [constructor | by apply sublist_skip | by apply sublist_cons].
Qed.

Lemma email_column_of_remaining (df df' : DataFrame) (failed : list string) (i : nat) :
  index_of "Email" (columns df) = Some i ->
  remaining_df df failed = Ok df' ->
  email_column df = map (fun r => nth i r NaN) (rows df) /\
  email_column df' = map (fun r => nth i r NaN) (rows df').
Proof.
  intros Hi Hrem. rewrite (remaining_df_rows df failed i Hi) in Hrem.
  injection Hrem as <-. unfold email_column, getitem_column. simpl.
  rewrite Hi. split; reflexivity.
Qed.

(** X27: the recipients the rewritten sheet would give to the next run are
    recipients of this run, in their order: from run to run the list only
    shrinks. *)
Theorem next_recipients_are_a_sublist
    (df df' : DataFrame) (failed : list string) (i : nat)
    (Hi : index_of "Email" (columns df) = Some i)
    (Hrem : remaining_df df failed = Ok df') :
  clean (email_column df') `sublist_of` clean (email_column df).
Proof.
  destruct (email_column_of_remaining df df' failed i Hi Hrem) as [-> ->].
  destruct (rewritten_rows_sublist df df' failed Hrem) as [_ Hsub].
  unfold clean, dropna.
  by do 2 apply map_sublist_of; apply filter_sublist_of, map_sublist_of.
Qed.

Lemma next_recipients_are_a_sublist_witness :
  index_of "Email" (columns (sheet mixed_sheet)) = Some 1%nat /\
  remaining_df (sheet mixed_sheet) ["c@d.org"]
  = Ok {| columns := ["Name"; "Email"]; rows := [[Text "x"; Text "c@d.org"]] |} /\
  ["c@d.org"] `sublist_of` ["a@b.com"; "c@d.org"].
Proof.
  assert (H1 : index_of "Email" (columns (sheet mixed_sheet)) = Some 1%nat)
    by reflexivity.
  assert (H2 : remaining_df (sheet mixed_sheet) ["c@d.org"]
               = Ok {| columns := ["Name"; "Email"];
                       rows := [[Text "x"; Text "c@d.org"]] |}) by reflexivity.
  split; [exact H1 |]. split; [exact H2 |].
  exact (next_recipients_are_a_sublist _ _ _ _ H1 H2).
Defined.






(** A cell that is not text makes a recipient, and its row is dropped
    even when every send fails: its string is on the failed list, but the
    cell does not equal it. *)
Example numeric_cell_row_is_dropped :
  read_emails (desk numeric_sheet fresh_creds)
  = Ok (sheet numeric_sheet, ["123"; "a@b.com"]) /\
  send_all offline 0 ["123"; "a@b.com"] [] = ["123"; "a@b.com"] /\
  (run offline (desk numeric_sheet fresh_creds)).1.2 !! email_list
  = Some (Workbook {| columns := ["Name"; "Email"];
                      rows := [[Text "x"; Text "a@b.com"]] |}).
Proof. repeat split; vm_compute; reflexivity. Qed.

(** X29: a run changes no file but the sheet and the token file. *)
Theorem run_changes_only_sheet_and_token
    (w : World) (fs : filesystem) (path : string)
    (Hsheet : path <> email_list) (Htoken : path <> token_pickle) :
  snd (fst (run w fs)) !! path = fs !! path.
Proof.
  unfold run. destruct (read_emails fs) as [[df emails]|]; simpl; [| reflexivity].
  pose proof (authorize_changes_only_the_token w fs path Htoken) as Hauth.
  destruct (authorize w fs) as [[[c|e] fs1] tr]; simpl in *; [| exact Hauth].
  destruct (build w); simpl; [| exact Hauth].
  unfold update_excel. destruct (remaining_df df _); [| exact Hauth].
  destruct (writable w); [| exact Hauth].
  rewrite lookup_insert_ne; [exact Hauth | congruence].
Qed.

Lemma run_changes_only_sheet_and_token_witness :
  "credentials.json" <> email_list /\ "credentials.json" <> token_pickle /\
  snd (fst (run flaky (desk plain_sheet stale_creds))) !! "credentials.json"
  = desk plain_sheet stale_creds !! "credentials.json".
Proof.
  assert (H1 : "credentials.json" <> email_list) by discriminate.
  assert (H2 : "credentials.json" <> token_pickle) by discriminate.
  split; [exact H1 |]. split; [exact H2 |].
  exact (run_changes_only_sheet_and_token flaky (desk plain_sheet stale_creds) _ H1 H2).
Defined.

(** *** The encoded message *)

Import Base64Url.

Lemma string_ind3 (P : string -> Prop) :
  P EmptyString ->
  (forall a, P (String a EmptyString)) ->
  (forall a b, P (String a (String b EmptyString))) ->
  (forall a b c rest, P rest -> P (String a (String b (String c rest)))) ->
  forall s, P s.
Proof.
  intros H0 H1 H2 H3 s.
  enough (H : P s /\ (forall a, P (String a s)) /\
              (forall a b, P (String a (String b s)))) by apply H.
  induction s as [|c s (IH0 & IH1 & IH2)]; [auto |].
  split; [apply IH1 |]. split; [intros a; apply IH2 |]. intros a b. by apply H3.
Qed.

Lemma get_contains (s : string) :
  forall k c, String.get k s = Some c -> contains c s = true.
Proof.
  induction s as [|c' s IH]; intros k c; simpl; [discriminate |].
  destruct k as [|k].
  - intros H. injection H as ->. rewrite Ascii.eqb_refl. reflexivity.
  - intros H. rewrite (IH k c H). apply orb_true_r.
Qed.

Lemma sextet_url_safe (n : N) : url_safe (sextet n) = true.
Proof.
  unfold sextet, url_safe.
  destruct (String.get (N.to_nat n) alphabet) as [c|] eqn:Hget.
  - rewrite (get_contains alphabet _ c Hget). reflexivity.
  - reflexivity.
Qed.

(** X30: the payload handed to the mail API is made of the letters, the
    digits, [-], [_] and [=] only, and has four characters for every
    three bytes of the message, the last group filled up. *)
Theorem raw_payload_is_url_safe (bytes : string) :
  all_url_safe (urlsafe_b64encode bytes) = true /\
  String.length (urlsafe_b64encode bytes)
  = (4 * ((String.length bytes + 2) / 3))%nat.
Proof.
  induction bytes as [|a|a b|a b c rest [IHsafe IHlen]] using string_ind3.
  - split; reflexivity.
  - split; [| reflexivity]. cbn [urlsafe_b64encode all_url_safe].
    rewrite !sextet_url_safe. reflexivity.
  - split; [| reflexivity]. cbn [urlsafe_b64encode all_url_safe].
    rewrite !sextet_url_safe. reflexivity.
  - split.
    + cbn [urlsafe_b64encode all_url_safe]. rewrite !sextet_url_safe, IHsafe.
      reflexivity.
    + cbn [urlsafe_b64encode String.length]. rewrite IHlen.
      replace (S (S (S (String.length rest))) + 2)%nat
        with ((String.length rest + 2) + 1 * 3)%nat by lia.
      rewrite Nat.div_add by lia. lia.
Qed.

End MailerExtras.
